(** * MATLAB Workspace Viewer: the snapshot consumer, the terminal actions,
      the auto-setup retry loop and the producer script

    The extension reads a JSON snapshot written by a MATLAB session, turns
    every record into a tree item (label, tooltip, description, icon), and
    forwards a few literal commands to a terminal.  This file embeds

    - [src/matlabConnection.ts]  (module [Connection]),
    - [src/workspaceProvider.ts] (module [Provider]),
    - the terminal auto-setup of [src/extension.ts] (module [Extension]),
    - [.vscode/export_workspace.m] and the copy of it that
      [createMatlabHelperScript] writes (module [Producer]),

    over a small model of the JavaScript values involved (module [Js]).

    Conventions.  A JavaScript string is a [string]: a sequence of code
    units, here restricted to the 8-bit range.  A JavaScript exception is
    the [Throw] case of [completion].  [undefined] is [None].  The integers
    that [parseInt] yields are kept as [N]; this is exact below 2^53, and the
    statements about printed dimensions carry that bound. *)

From Stdlib Require Import String Ascii ZArith NArith List Lia Bool.
From Stdlib Require Import DecimalString DecimalN.
From stdpp Require Import base list option.
Import ListNotations.

Open Scope string_scope.
Open Scope Z_scope.

(** ** Completions: a value or a thrown exception *)

Inductive error : Set :=
| TypeError      (* property access on null, calling a non-function, ... *)
| SyntaxError    (* JSON.parse on malformed text *)
| SystemError    (* readFileSync on something that cannot be read *)
| Untyped.       (* a value outside its declared TypeScript interface:
                    what the run time does with it is not modelled *)

Inductive completion (A : Type) : Type :=
| Normal (a : A)
| Throw (e : error).

Arguments Normal {A} a.
Arguments Throw {A} e.

Definition bind {A B} (c : completion A) (k : A -> completion B) : completion B :=
  match c with
  | Normal a => k a
  | Throw e => Throw e
  end.

(** [try { body } catch (error) { handler }] *)
Definition try_catch {A} (body : completion A) (handler : error -> completion A)
  : completion A :=
  match body with
  | Normal a => Normal a
  | Throw e => handler e
  end.

Declare Scope js_scope.
Delimit Scope js_scope with js.
Notation "'let*' x ':=' c 'in' k" := (bind c (fun x => k))
  (at level 10, x pattern, c at level 100, k at level 200) : js_scope.
Open Scope js_scope.

(** [Array.prototype.map] with a callback that may throw. *)
Fixpoint mapM {A B} (f : A -> completion B) (l : list A) : completion (list B) :=
  match l with
  | [] => Normal []
  | x :: rest =>
      let* y := f x in
      let* ys := mapM f rest in
      Normal (y :: ys)
  end.

(** ** JavaScript strings, numbers and JSON values *)

Module Js.

Definition code (c : ascii) : nat := nat_of_ascii c.

(** [\d] *)
Definition is_digit (c : ascii) : bool :=
  (48 <=? code c)%nat && (code c <=? 57)%nat.

(** [\s], for code units below 256: TAB, LF, VT, FF, CR, SP, NBSP. *)
Definition is_space (c : ascii) : bool :=
  ((9 <=? code c)%nat && (code c <=? 13)%nat)
  || (code c =? 32)%nat || (code c =? 160)%nat.

Definition lower (c : ascii) : ascii :=
  let n := code c in
  if ((65 <=? n)%nat && (n <=? 90)%nat)
     || ((192 <=? n)%nat && (n <=? 222)%nat && negb (n =? 215)%nat)
  then ascii_of_nat (n + 32) else c.

(** [String.prototype.toLowerCase] *)
Fixpoint toLowerCase (s : string) : string :=
  match s with
  | EmptyString => EmptyString
  | String c rest => String (lower c) (toLowerCase rest)
  end.

(** [String.prototype.startsWith] *)
Fixpoint startsWith (s p : string) : bool :=
  match p, s with
  | EmptyString, _ => true
  | String _ _, EmptyString => false
  | String b p', String a s' => Ascii.eqb a b && startsWith s' p'
  end.

(** [String.prototype.includes] *)
Fixpoint includes (s p : string) : bool :=
  startsWith s p ||
  match s with
  | EmptyString => false
  | String _ rest => includes rest p
  end.


(** The longest prefix whose code units satisfy [p], and the rest. *)
Fixpoint span (p : ascii -> bool) (s : string) : string * string :=
  match s with
  | EmptyString => (EmptyString, EmptyString)
  | String c rest =>
      if p c then let '(a, b) := span p rest in (String c a, b)
      else (EmptyString, s)
  end.

Definition is_empty (s : string) : bool :=
  match s with EmptyString => true | _ => false end.

(** The pattern [\[(\d+)\s+(\d+)\]] tried right after an opening
    bracket.  The three classes and the closing bracket are pairwise
    disjoint, so the greedy runs are the only way to match and no
    backtracking is needed.  The result is the two captures. *)
Definition match_after_bracket (s : string) : option (string * string) :=
  let '(d1, r1) := span is_digit s in
  if is_empty d1 then None else
  let '(w, r2) := span is_space r1 in
  if is_empty w then None else
  let '(d2, r3) := span is_digit r2 in
  if is_empty d2 then None else
  match r3 with
  | String c _ => if Ascii.eqb c "]" then Some (d1, d2) else None
  | EmptyString => None
  end.

(** [s.match(/\[(\d+)\s+(\d+)\]/)]: the leftmost match anywhere in [s];
    [None] is JavaScript's [null]. *)
Fixpoint match_size (s : string) : option (string * string) :=
  match s with
  | EmptyString => None
  | String c rest =>
      if Ascii.eqb c "[" then
        match match_after_bracket rest with
        | Some g => Some g
        | None => match_size rest
        end
      else match_size rest
  end.

(** The meaning of the pattern, to compare [match_size] with.  A capture
    is a non-empty run of digits; the separator is a non-empty run of white
    space. *)
Fixpoint every (p : ascii -> bool) (s : string) : bool :=
  match s with
  | EmptyString => true
  | String c rest => p c && every p rest
  end.

Definition run_of (p : ascii -> bool) (s : string) : Prop :=
  s <> EmptyString /\ every p s = true.

(** [s] begins with a match whose captures are [d1] and [d2]. *)
Definition size_pattern_at (s d1 d2 : string) : Prop :=
  exists w post,
    run_of is_digit d1 /\ run_of is_space w /\ run_of is_digit d2 /\
    s = "[" ++ d1 ++ w ++ d2 ++ "]" ++ post.

(** The pattern matches somewhere in [s]. *)
Definition size_pattern_occurs (s : string) : Prop :=
  exists pre rest d1 d2, s = pre ++ rest /\ size_pattern_at rest d1 d2.


(** [parseInt] on a capture of [\d+]: the integer that the digits denote
    (exact below 2^53).  Any other argument is never passed; [0] stands
    in for it. *)
Definition parseInt (digits : string) : N :=
  match NilEmpty.uint_of_string digits with
  | Some d => N.of_uint d
  | None => 0%N
  end.

(** [String(n)] for a non-negative integer below 2^53. *)
Definition decimal (n : N) : string := NilZero.string_of_uint (N.to_uint n).

(** Truthiness of a string, and of a possibly undefined string. *)
Definition truthy_string (s : string) : bool := negb (is_empty s).

Definition truthy_opt (o : option string) : bool :=
  match o with Some s => truthy_string s | None => false end.

(** A possibly undefined string inside a template literal. *)
Definition interpolate (o : option string) : string :=
  match o with Some s => s | None => "undefined" end.

(** Numbers that come out of [JSON.parse] are doubles; only their
    printing and their comparison with zero are ever used. *)
Class NumberOps := {
  number : Type;
  Number_toString : number -> string;
  Number_isZero : number -> bool   (* [n === 0], which also is [!n] *)
}.

Section Values.
Context `{NumberOps}.

(** What [JSON.parse] returns.  An object keeps its members in source
    order; a repeated key is resolved in favour of the last one. *)
#[warnings="-register-all"] Inductive json : Type :=
| JNull
| JBool (b : bool)
| JNum (n : number)
| JStr (s : string)
| JArr (elements : list json)
| JObj (members : list (string * json)).

Fixpoint own_property (key : string) (members : list (string * json))
  : option json :=
  match members with
  | [] => None
  | (k, v) :: rest =>
      match own_property key rest with
      | Some later => Some later
      | None => if String.eqb k key then Some v else None
      end
  end.

(** [v.key] for one of the keys [name], [size], [class], [value],
    [variables]: no prototype has them, so only an object's own members
    count.  Reading a property of [null] throws. *)
Definition get (v : json) (key : string) : completion (option json) :=
  match v with
  | JNull => Throw TypeError
  | JObj members => Normal (own_property key members)
  | _ => Normal None
  end.

Definition truthy (v : json) : bool :=
  match v with
  | JNull => false
  | JBool b => b
  | JNum n => negb (Number_isZero n)
  | JStr s => truthy_string s
  | JArr _ | JObj _ => true
  end.

(** [Array.prototype.join] over a conversion [f] of the elements. *)
Definition join_by {A} (f : A -> completion string) (sep : string)
  : list A -> completion string :=
  fix go (l : list A) : completion string :=
    match l with
    | [] => Normal ""
    | x :: rest =>
        let* s := f x in
        match rest with
        | [] => Normal s
        | _ => let* r := go rest in Normal (s ++ sep ++ r)
        end
    end.

(** [ToString].  An array prints as its elements joined by a comma,
    [null] elements as nothing.  An object prints as [[object Object]]
    unless it carries its own [toString] member: that member is not
    callable, [valueOf] returns the object, and the conversion throws. *)
Fixpoint ToString (v : json) : completion string :=
  match v with
  | JNull => Normal "null"
  | JBool true => Normal "true"
  | JBool false => Normal "false"
  | JNum n => Normal (Number_toString n)
  | JStr s => Normal s
  | JArr l =>
      join_by (fun x => match x with
                        | JNull => Normal ""
                        | _ => ToString x
                        end) "," l
  | JObj members =>
      match own_property "toString" members with
      | Some _ => Throw TypeError
      | None => Normal "[object Object]"
      end
  end.

Definition element_string (x : json) : completion string :=
  match x with
  | JNull => Normal ""
  | _ => ToString x
  end.

(** [arr.join(sep)] *)
Definition Array_join (sep : string) (l : list json) : completion string :=
  join_by element_string sep l.

(** [arr.slice(0, finish)] for an integer [finish]: a negative one
    counts from the end. *)
Definition Array_slice0 {A} (finish : Z) (l : list A) : list A :=
  let len := Z.of_nat (length l) in
  let final := if finish <? 0 then Z.max (len + finish) 0
               else Z.min finish len in
  firstn (Z.to_nat final) l.

(** [s.substring(0, n)] *)
Definition substring0 (n : nat) (s : string) : string := String.substring 0 n s.

End Values.

End Js.

(** ** The part of the editor that the extension acts on *)

Module Vscode.
Import Js.

Record Terminal : Type := {
  terminal_name : string;
  sentText : list string;     (* every [sendText] so far, oldest first *)
  shown : bool                (* [show] was called *)
}.

Inductive Message : Type :=
| Information (text : string) (items : list string)
| Warning (text : string) (items : list string)
| Error (text : string).

(** What a [setTimeout] callback of [MatlabConnection] does. *)
Inductive Callback : Set :=
| CallTriggerWorkspaceExport.

Record Window : Type := {
  workspaceFolders : list string;
  terminals : list Terminal;
  messages : list Message;               (* oldest first *)
  panels : list string;                  (* titles of the webview panels *)
  timeouts : list (Z * Callback)         (* [setTimeout(callback, delay)] *)
}.

Definition sendText (text : string) (t : Terminal) : Terminal :=
  {| terminal_name := terminal_name t;
     sentText := sentText t ++ [text];
     shown := shown t |}.

Definition show (t : Terminal) : Terminal :=
  {| terminal_name := terminal_name t; sentText := sentText t; shown := true |}.

Definition with_terminals (ts : list Terminal) (w : Window) : Window :=
  {| workspaceFolders := workspaceFolders w; terminals := ts;
     messages := messages w; panels := panels w; timeouts := timeouts w |}.

Definition showMessage (m : Message) (w : Window) : Window :=
  {| workspaceFolders := workspaceFolders w; terminals := terminals w;
     messages := messages w ++ [m]; panels := panels w;
     timeouts := timeouts w |}.

Definition createWebviewPanel (title : string) (w : Window) : Window :=
  {| workspaceFolders := workspaceFolders w; terminals := terminals w;
     messages := messages w; panels := panels w ++ [title];
     timeouts := timeouts w |}.

Definition setTimeout (callback : Callback) (delay : Z) (w : Window) : Window :=
  {| workspaceFolders := workspaceFolders w; terminals := terminals w;
     messages := messages w; panels := panels w;
     timeouts := timeouts w ++ [(delay, callback)] |}.

(** [t.name.toLowerCase().includes('matlab')] *)
Definition is_matlab (name : string) : bool := includes (toLowerCase name) "matlab".

(** [terminals.find(t => t.name.toLowerCase().includes('matlab'))], with the
    position of the terminal found. *)
Definition find_matlab (ts : list Terminal) : option (nat * Terminal) :=
  list_find (fun t => is_matlab (terminal_name t) = true) ts.




End Vscode.

(** ** The snapshot reader: [src/matlabConnection.ts] *)

Module Connection.
Import Js.

(** What [fs.existsSync] and [fs.readFileSync] see at a path. *)
Inductive file : Type :=
| Absent                   (* existsSync is false *)
| Unreadable               (* exists, but readFileSync throws *)
| Content (text : string).

Definition filesystem : Type := string -> file.

(** [JSON.parse]: [None] is a thrown [SyntaxError]. *)
Class JsonParser `{NumberOps} := { JSON_parse : string -> option json }.

(** [interface MatlabVariable] *)
Record MatlabVariable `{NumberOps} : Type := {
  name : string;
  size : string;
  class : string;
  value : option json      (* [value?: any] *)
}.

(** The private state of a [MatlabConnection] that reading depends on. *)
Record MatlabConnection : Type := { workspaceFile : option string }.

Section Reading.
Context `{NumberOps} `{!JsonParser}.

(** A JSON value that has the shape of [MatlabVariable]. *)
Definition as_MatlabVariable (v : json) : option MatlabVariable :=
  match v with
  | JObj members =>
      match own_property "name" members,
            own_property "size" members,
            own_property "class" members with
      | Some (JStr n), Some (JStr s), Some (JStr c) =>
          Some {| name := n; size := s; class := c;
                  value := own_property "value" members |}
      | _, _, _ => None
      end
  | _ => None
  end.

(** A snapshot is well formed when every element of [variables] is a
    variable record whose value, if present, is a scalar or an array of
    scalars. *)
Definition scalar (v : json) : bool :=
  match v with
  | JArr _ | JObj _ => false
  | _ => true
  end.

Definition displayable (value : option json) : bool :=
  match value with
  | None => true
  | Some (JArr l) => forallb scalar l
  | Some v => scalar v
  end.

Definition well_formed (variables : list json) (records : list MatlabVariable) : Prop :=
  map as_MatlabVariable variables = map Some records /\
  Forall (fun r => displayable (value r) = true) records.

(** [v.length]: an array or a string has one; an object has the member it
    was given, if any. *)
Inductive length_value : Type :=
| Count (n : nat)
| Member (v : json).

Definition get_length (v : json) : completion (option length_value) :=
  match v with
  | JNull => Throw TypeError
  | JArr l => Normal (Some (Count (length l)))
  | JStr s => Normal (Some (Count (String.length s)))
  | JObj members =>
      Normal (match own_property "length" members with
              | Some x => Some (Member x)
              | None => None
              end)
  | _ => Normal None
  end.

(** [`${v.length}`] *)
Definition interpolate_length (v : json) : completion string :=
  let* len := get_length v in
  match len with
  | Some (Count n) => Normal (decimal (N.of_nat n))
  | Some (Member x) => ToString x
  | None => Normal "undefined"
  end.

(** [v.length === 0] *)
Definition length_is_zero (v : json) : completion bool :=
  let* len := get_length v in
  Normal match len with
         | Some (Count n) => (n =? 0)%nat
         | Some (Member (JNum n)) => Number_isZero n
         | _ => false
         end.

(** [data.variables || []] *)
Definition variables_or_empty (data : json) : completion json :=
  let* variables := get data "variables" in
  Normal match variables with
         | Some v => if truthy v then v else JArr []
         | None => JArr []
         end.

(** [getWorkspaceVariables].  The lines written to the output channel are
    left out, but the interpolation of [variables.length] in one of them is
    kept: it is evaluated inside the [try] block and can throw. *)
Definition getWorkspaceVariables (fs : filesystem) (this : MatlabConnection)
  : completion json :=
  match workspaceFile this with
  | None => Normal (JArr [])
  | Some path =>
      try_catch
        (match fs path with
         | Absent => Normal (JArr [])
         | Unreadable => Throw SystemError
         | Content content =>
             let* data := match JSON_parse content with
                          | Some d => Normal d
                          | None => Throw SyntaxError
                          end in
             let* variables := variables_or_empty data in
             let* _ := interpolate_length variables in
             Normal variables
         end)
        (fun _ => Normal (JArr []))
  end.

End Reading.

(** *** The write actions *)

Import Vscode.

Definition showSetupInstructions (w : Window) : Window :=
  createWebviewPanel "MATLAB Workspace Viewer Setup" w.

Definition exportCommand : string := "addpath('.vscode'); export_workspace();".

(** [triggerWorkspaceExport].  [choice] is the button that the user picks in
    the information message, if the message is shown and a button is
    picked. *)
Definition triggerWorkspaceExport (choice : option string) (w : Window) : Window :=
  match workspaceFolders w with
  | [] => showMessage (Error "No workspace folder open") w
  | _ :: _ =>
      match find_matlab (terminals w) with
      | None =>
          let w' := showMessage
                      (Information
                         "No MATLAB terminal found. Please run MATLAB in the VSCode terminal first."
                         ["Show Instructions"]) w in
          match choice with
          | Some c => if String.eqb c "Show Instructions"
                      then showSetupInstructions w' else w'
          | None => w'
          end
      | Some (i, matlabTerminal) =>
          showMessage (Information "Workspace export command sent to MATLAB" [])
            (with_terminals
               (<[i := show (sendText exportCommand matlabTerminal)]> (terminals w))
               w)
      end
  end.

Definition clearWorkspace (w : Window) : Window :=
  match find_matlab (terminals w) with
  | None => showMessage (Error "No MATLAB terminal found") w
  | Some (i, matlabTerminal) =>
      setTimeout CallTriggerWorkspaceExport 500
        (with_terminals (<[i := sendText "clear all" matlabTerminal]> (terminals w)) w)
  end.

Definition deleteVariable (variableName : string) (w : Window) : Window :=
  match find_matlab (terminals w) with
  | None => showMessage (Error "No MATLAB terminal found") w
  | Some (i, matlabTerminal) =>
      setTimeout CallTriggerWorkspaceExport 500
        (with_terminals
           (<[i := sendText ("clear " ++ variableName) matlabTerminal]> (terminals w))
           w)
  end.

End Connection.

(** ** The tree view: [src/workspaceProvider.ts] *)

Module Provider.
Import Js.

Inductive TreeItemCollapsibleState : Set := NoneState | Collapsed | Expanded.

(** The argument of [new vscode.ThemeIcon(...)].  [typeMap] is an object
    literal, so a lower-cased class that names a member of
    [Object.prototype] finds that member instead of a string. *)
Inductive icon : Type :=
| ThemeIcon (id : string)
| Inherited (key : string).

(** [class WorkspaceItem extends vscode.TreeItem] *)
Record WorkspaceItem : Type := {
  label : string;
  collapsibleState : TreeItemCollapsibleState;
  variableName : option string;
  value : option string;
  type : option string;
  size : option string;
  contextValue : option string;
  tooltip : option string;
  description : option string;
  iconPath : option icon
}.

Definition getTooltip (this : WorkspaceItem) : string :=
  interpolate (variableName this) ++ String "010" "Type: " ++ interpolate (type this)
  ++ String "010" "Size: " ++ interpolate (size this)
  ++ String "010" "Value: " ++ interpolate (value this).

(** [`${this.size} ${this.type}`] *)
Definition size_and_type (this : WorkspaceItem) : string :=
  interpolate (size this) ++ " " ++ interpolate (type this).

(** [this.value || `${this.size} ${this.type}`] *)
Definition value_or_size_and_type (this : WorkspaceItem) : string :=
  match value this with
  | Some v => if truthy_string v then v else size_and_type this
  | None => size_and_type this
  end.

(** [this.type === t] *)
Definition type_is (this : WorkspaceItem) (t : string) : bool :=
  match type this with
  | Some s => String.eqb s t
  | None => false
  end.

Definition getDescription (this : WorkspaceItem) : string :=
  if type_is this "char" || type_is this "string" then
    value_or_size_and_type this
  else
    match value this, size this with
    | Some v, Some sz =>
        if truthy_string v && truthy_string sz then
          match match_size sz with
          | Some (g1, g2) =>
              let rows := parseInt g1 in
              let cols := parseInt g2 in
              if (rows =? 1)%N && (cols =? 1)%N
                 && negb (type_is this "struct") && negb (type_is this "cell")
              then v
              else decimal rows ++ "x" ++ decimal cols ++ " "
                   ++ interpolate (type this)
          | None => value_or_size_and_type this
          end
        else value_or_size_and_type this
    | _, _ => value_or_size_and_type this
    end.

Definition typeMap : list (string * string) :=
  [ ("double", "symbol-number"); ("single", "symbol-number");
    ("int8", "symbol-number"); ("int16", "symbol-number");
    ("int32", "symbol-number"); ("int64", "symbol-number");
    ("uint8", "symbol-number"); ("uint16", "symbol-number");
    ("uint32", "symbol-number"); ("uint64", "symbol-number");
    ("logical", "symbol-boolean"); ("char", "symbol-string");
    ("string", "symbol-string"); ("cell", "symbol-array");
    ("struct", "symbol-struct"); ("table", "symbol-class");
    ("function_handle", "symbol-method") ].

Fixpoint lookup_typeMap (key : string) (m : list (string * string)) : option string :=
  match m with
  | [] => None
  | (k, v) :: rest => if String.eqb k key then Some v else lookup_typeMap key rest
  end.

Definition getIcon (this : WorkspaceItem) : icon :=
  match type this with
  | None => ThemeIcon "symbol-variable"
  | Some t =>
      if is_empty t then ThemeIcon "symbol-variable" else
      let key := toLowerCase t in
      match lookup_typeMap key typeMap with
      | Some id => ThemeIcon id
      | None =>
          if String.eqb key "constructor" || String.eqb key "__proto__"
          then Inherited key
          else ThemeIcon "symbol-variable"
      end
  end.

(** The constructor. *)
Definition new_WorkspaceItem (label : string)
    (collapsibleState : TreeItemCollapsibleState)
    (variableName value type size : option string) : WorkspaceItem :=
  let this :=
    {| label := label; collapsibleState := collapsibleState;
       variableName := variableName; value := value; type := type;
       size := size; contextValue := None; tooltip := None;
       description := None; iconPath := None |} in
  if truthy_opt variableName then
    {| label := label; collapsibleState := collapsibleState;
       variableName := variableName; value := value; type := type;
       size := size;
       contextValue := Some "variable";
       tooltip := Some (getTooltip this);
       description := Some (getDescription this);
       iconPath := Some (getIcon this) |}
  else this.

(** The entry shown for an empty workspace. *)
Definition placeholder : WorkspaceItem :=
  new_WorkspaceItem "No variables in workspace" NoneState None None None None.

Section Formatting.
Context `{NumberOps} `{!Connection.JsonParser}.

Definition formatValue (variable : Connection.MatlabVariable) (maxPreview : Z)
  : completion string :=
  match Connection.value variable with
  | None | Some JNull => Normal ""
  | Some (JArr val) =>
      if Z.of_nat (length val) >? maxPreview then
        let* preview := Array_join ", " (Array_slice0 maxPreview val) in
        Normal ("[" ++ preview ++ ", ...]")
      else
        let* all := Array_join ", " val in
        Normal ("[" ++ all ++ "]")
  | Some val =>
      let* strVal := ToString val in
      if (100 <? String.length strVal)%nat
      then Normal (substring0 97 strVal ++ "...")
      else Normal strVal
  end.

(** The callback of [variables.map] in [getChildren]: [item_for] is its
    [new WorkspaceItem(...)], [item_of] the whole of it. *)
Definition item_for (v : Connection.MatlabVariable) (displayValue : string)
  : WorkspaceItem :=
  new_WorkspaceItem (Connection.name v) NoneState
    (Some (Connection.name v)) (Some displayValue)
    (Some (Connection.class v)) (Some (Connection.size v)).

Definition item_of (maxArrayPreview : Z) (v : Connection.MatlabVariable)
  : completion WorkspaceItem :=
  let* displayValue := formatValue v maxArrayPreview in
  Normal (item_for v displayValue).

(** [config.get<number>('maxArrayPreview', 5)] *)
Definition maxArrayPreview (setting : option Z) : Z :=
  match setting with Some n => n | None => 5 end.

(** [getChildren].  [setting] is the configured [maxArrayPreview], if any.
    An element of the array that is not a [MatlabVariable] ends the model
    with [Untyped]. *)
Definition getChildren (fs : Connection.filesystem)
    (connection : Connection.MatlabConnection) (setting : option Z)
    (element : option WorkspaceItem) : completion (list WorkspaceItem) :=
  match element with
  | Some _ => Normal []
  | None =>
      let* variables := Connection.getWorkspaceVariables fs connection in
      let* _ := Connection.interpolate_length variables in
      let* empty := Connection.length_is_zero variables in
      if (empty : bool) then Normal [placeholder]
      else
        match variables with
        | JArr l =>
            mapM (fun v => match Connection.as_MatlabVariable v with
                           | Some mv => item_of (maxArrayPreview setting) mv
                           | None => Throw Untyped
                           end) l
        | _ => Throw TypeError      (* [variables.map] is not a function *)
        end
  end.

End Formatting.

End Provider.

(** ** Terminal auto-setup: the handler of [onDidOpenTerminal] in
       [src/extension.ts] *)

Module Extension.
Import Js Vscode.

Definition maxAttempts : nat := 10.

Definition setupCommand : string := "addpath('.vscode'); setup_auto_export".

(** The two callbacks that the handler hands to [setTimeout]. *)
Inductive Timer : Set :=
| Retry       (* the arrow function inside [trySendSetup] *)
| CleanUp.    (* the one that runs after 60 seconds *)

(** The variables that the closures of one run share, and what the run has
    done to the editor so far. *)
Record Setup : Type := {
  setupComplete : bool;
  attemptCount : nat;
  disposed : bool;                (* the watcher and its listener *)
  now : Z;                        (* milliseconds since the handler ran *)
  pending : list (Z * Timer);     (* due time and callback, soonest first *)
  delays : list Z;                (* the delay of every retry timer, in order *)
  sent : list string;             (* [terminal.sendText] *)
  notices : list Message;
  autoSetupOnTerminalOpen : bool; (* the global setting *)
  clipboard : option string
}.

Definition update_core (complete : bool) (count : nat) (disp : bool) (s : Setup) : Setup :=
  {| setupComplete := complete; attemptCount := count; disposed := disp;
     now := now s; pending := pending s; delays := delays s; sent := sent s;
     notices := notices s; autoSetupOnTerminalOpen := autoSetupOnTerminalOpen s;
     clipboard := clipboard s |}.

Definition notify (m : Message) (s : Setup) : Setup :=
  {| setupComplete := setupComplete s; attemptCount := attemptCount s;
     disposed := disposed s; now := now s; pending := pending s;
     delays := delays s; sent := sent s; notices := notices s ++ [m];
     autoSetupOnTerminalOpen := autoSetupOnTerminalOpen s;
     clipboard := clipboard s |}.

Definition send (text : string) (s : Setup) : Setup :=
  {| setupComplete := setupComplete s; attemptCount := attemptCount s;
     disposed := disposed s; now := now s; pending := pending s;
     delays := delays s; sent := sent s ++ [text]; notices := notices s;
     autoSetupOnTerminalOpen := autoSetupOnTerminalOpen s;
     clipboard := clipboard s |}.

(** Timers fire in the order of their due times, and in the order of their
    creation when these are equal. *)
Fixpoint enqueue (due : Z) (t : Timer) (q : list (Z * Timer)) : list (Z * Timer) :=
  match q with
  | [] => [(due, t)]
  | (d, t') :: rest =>
      if due <? d then (due, t) :: q else (d, t') :: enqueue due t rest
  end.

Definition set_timer (t : Timer) (delay : Z) (s : Setup) : Setup :=
  {| setupComplete := setupComplete s; attemptCount := attemptCount s;
     disposed := disposed s; now := now s;
     pending := enqueue (now s + delay) t (pending s);
     delays := match t with Retry => delays s ++ [delay] | CleanUp => delays s end;
     sent := sent s; notices := notices s;
     autoSetupOnTerminalOpen := autoSetupOnTerminalOpen s;
     clipboard := clipboard s |}.

Definition dispose (s : Setup) : Setup :=
  update_core (setupComplete s) (attemptCount s) true s.

Definition warning : Message :=
  Warning ("MATLAB Workspace Viewer: Auto-setup may have failed. Run "
           ++ String "034" "setup_auto_export"
           ++ String "034" " in MATLAB manually.")
          ["Copy Command"].

Definition waiting : Message :=
  Information "MATLAB Workspace Viewer: Waiting for MATLAB to start..."
              ["Disable Auto-Setup"].

Definition successful : Message :=
  Information "MATLAB Workspace Viewer: Auto-setup successful!" [].

(** [trySendSetup], up to its call of [setTimeout]. *)
Definition trySendSetup (s : Setup) : Setup :=
  if setupComplete s || (maxAttempts <=? attemptCount s)%nat then
    let s1 := dispose s in
    if negb (setupComplete s1) && (maxAttempts <=? attemptCount s1)%nat
    then notify warning s1
    else s1
  else
    let s1 := update_core (setupComplete s) (S (attemptCount s)) (disposed s) s in
    let delay := 2000 + Z.of_nat (attemptCount s1) * 1000 in
    set_timer Retry delay s1.

(** The body of a timer callback. *)
Definition fire (t : Timer) (s : Setup) : Setup :=
  match t with
  | Retry =>
      if negb (setupComplete s) then
        let s1 := send setupCommand s in
        let s2 := if (attemptCount s1 =? 1)%nat then notify waiting s1 else s1 in
        trySendSetup s2
      else s
  | CleanUp => dispose s
  end.

(** What can happen between two turns of the event loop. *)
Inductive event : Set :=
| TimerDue            (* the soonest timer fires *)
| FileChanged         (* the snapshot file changes *)
| DisableAutoSetup    (* the user picks the button of the first notice *)
| CopyCommand.        (* the user picks the button of the warning *)

Definition shown_notice (m : Message) (s : Setup) : bool :=
  existsb (fun m' => match m, m' with
                     | Information a _, Information b _ => String.eqb a b
                     | Warning a _, Warning b _ => String.eqb a b
                     | Error a, Error b => String.eqb a b
                     | _, _ => false
                     end) (notices s).

Definition step (s : Setup) (e : event) : Setup :=
  match e with
  | TimerDue =>
      match pending s with
      | [] => s
      | (due, t) :: rest =>
          fire t
            {| setupComplete := setupComplete s; attemptCount := attemptCount s;
               disposed := disposed s; now := Z.max (now s) due; pending := rest;
               delays := delays s; sent := sent s; notices := notices s;
               autoSetupOnTerminalOpen := autoSetupOnTerminalOpen s;
               clipboard := clipboard s |}
      end
  | FileChanged =>
      (* [watcher.onDidChange]: a disposed watcher no longer reports *)
      if disposed s then s
      else if negb (setupComplete s)
           then dispose (notify successful (update_core true (attemptCount s) (disposed s) s))
           else s
  | DisableAutoSetup =>
      if shown_notice waiting s then
        {| setupComplete := true; attemptCount := attemptCount s;
           disposed := disposed s; now := now s; pending := pending s;
           delays := delays s; sent := sent s; notices := notices s;
           autoSetupOnTerminalOpen := false; clipboard := clipboard s |}
      else s
  | CopyCommand =>
      if shown_notice warning s then
        {| setupComplete := setupComplete s; attemptCount := attemptCount s;
           disposed := disposed s; now := now s; pending := pending s;
           delays := delays s; sent := sent s; notices := notices s;
           autoSetupOnTerminalOpen := autoSetupOnTerminalOpen s;
           clipboard := Some setupCommand |}
      else s
  end.

(** The state right after the handler has run for a MATLAB terminal:
    the first call of [trySendSetup] and the 60 second timer. *)
Definition started : Setup :=
  set_timer CleanUp 60000
    (trySendSetup
       {| setupComplete := false; attemptCount := 0; disposed := false;
          now := 0; pending := []; delays := []; sent := []; notices := [];
          autoSetupOnTerminalOpen := true; clipboard := None |}).

(** The handler itself: [None] when it returns without starting a run. *)
Definition onDidOpenTerminal (autoSetup : bool) (folders : list string)
    (terminalName : string) : option Setup :=
  if is_matlab terminalName then
    if autoSetup then
      match folders with
      | [] => None
      | _ :: _ => Some started
      end
    else None
  else None.

Definition run (events : list event) : Setup := fold_left step events started.

(** Observations on a run: the retry timers that are still to fire, the
    warnings shown, the delay of the [k]-th attempt, and a bound on the
    number of timers that can still fire. *)
Definition is_retry (p : Z * Timer) : bool :=
  match snd p with Retry => true | CleanUp => false end.

Definition retries_pending (s : Setup) : nat :=
  length (List.filter is_retry (pending s)).

Definition is_warning (m : Message) : bool :=
  match m with Warning _ _ => true | _ => false end.

Definition warnings (s : Setup) : nat :=
  length (List.filter is_warning (notices s)).

Definition delay_of (attempt : nat) : Z := 2000 + Z.of_nat attempt * 1000.

Definition remaining (s : Setup) : nat :=
  (length (pending s)
   + match retries_pending s with
     | O => 0
     | S _ => maxAttempts - attemptCount s
     end)%nat.

(** What holds of every state of a run. *)
Record invariant (s : Setup) : Prop := {
  count_bounds : (1 <= attemptCount s <= maxAttempts)%nat;
  delays_grow : delays s = map delay_of (seq 1 (attemptCount s));
  one_command : Forall (eq setupCommand) (sent s);
  one_retry : (retries_pending s <= 1)%nat;
  one_cleanup : (length (pending s) <= retries_pending s + 1)%nat;
  while_pending :
    retries_pending s = 1%nat ->
    (length (sent s) + 1 = attemptCount s)%nat /\ warnings s = 0%nat;
  when_idle :
    retries_pending s = 0%nat ->
    (length (sent s) <= attemptCount s)%nat /\ (warnings s <= 1)%nat /\
    (setupComplete s = false ->
     length (sent s) = maxAttempts /\ warnings s = 1%nat)
}.

End Extension.

(** ** The producer: [.vscode/export_workspace.m] and the script text in
       [createMatlabHelperScript] *)

Module Producer.
Import Js.

(** A numeric or logical array, as far as the script looks at it: its
    class, its dimensions, and the text that [mat2str] prints for it when it
    is a matrix. *)
Record Numeric : Type := {
  num_class : string;
  num_dims : list nat;
  num_complex : bool;        (* [~isreal(val)] *)
  num_mat2str : string
}.

(** The values of the base workspace.  Text is a character row vector or a
    string scalar; character matrices and string arrays of several elements
    are not modelled. *)
Inductive mvalue : Type :=
| Num (a : Numeric)              (* [isnumeric(val) || islogical(val)] *)
| CharRow (text : string)        (* [ischar(val)], 1-by-n *)
| StringScalar (text : string)   (* [isstring(val)], 1-by-1 *)
| Cell (dims : list nat)
| Struct (fields : list string)
| Table (height width : nat)
| Other (cls : string).

(** [numel] *)
Definition numel (dims : list nat) : nat := fold_right Nat.mul 1%nat dims.

(** [length(val)] for text: the number of characters of a row vector, the
    number of strings (one) of a string scalar. *)
Definition text_length (v : mvalue) : nat :=
  match v with
  | CharRow s => String.length s
  | _ => 1%nat
  end.

(** [char(val)] for text. *)
Definition char (v : mvalue) : string :=
  match v with
  | CharRow s | StringScalar s => s
  | _ => ""
  end.

(** [val(1:100)]: indexing past the end is an error. *)
Definition first_100 (v : mvalue) : option mvalue :=
  match v with
  | CharRow s =>
      if (100 <=? String.length s)%nat then Some (CharRow (substring0 100 s)) else None
  | _ => None
  end.

(** [strjoin(parts, sep)] *)
Fixpoint strjoin (parts : list string) (sep : string) : string :=
  match parts with
  | [] => ""
  | [p] => p
  | p :: rest => p ++ sep ++ strjoin rest sep
  end.

(** [mat2str] of a row of dimensions, such as [[3 4]]; each dimension is
    below 10^15, where [mat2str] prints all its digits. *)
Definition mat2str_size (dims : list nat) : string :=
  "[" ++ strjoin (map (fun d => decimal (N.of_nat d)) dims) " " ++ "]".

Definition error_reading : string := "<error reading value>".

(** [mat2str(val)]: it takes matrices only, and raises an error on an
    array of three or more dimensions.  [None] is that error. *)
Definition mat2str (a : Numeric) : option string :=
  if (length (num_dims a) <=? 2)%nat then Some (num_mat2str a) else None.

(** The branches on numeric and text values, which the two scripts share.
    [None] is an error, which the enclosing [try] turns into
    [error_reading]. *)
Definition numeric_value (a : Numeric) : option string :=
  if (numel (num_dims a) <=? 10)%nat then mat2str a
  else Some (num_class a ++ " ["
             ++ decimal (N.of_nat (numel (num_dims a))) ++ " elements]").

Definition text_value (val : mvalue) : option string :=
  if (text_length val <=? 100)%nat then Some (char val)
  else match first_100 val with
       | Some head => Some (char head ++ "...")
       | None => None
       end.

(** The [value] field that [export_workspace.m] emits for a variable;
    [None] as argument is a failing [evalin]. *)
Definition exported_value (val : option mvalue) : string :=
  match val with
  | None => error_reading
  | Some (Num a) =>
      match numeric_value a with
      | Some s => s
      | None => error_reading
      end
  | Some (CharRow _ as v) | Some (StringScalar _ as v) =>
      match text_value v with
      | Some s => s
      | None => error_reading
      end
  | Some (Cell dims) => "cell array [" ++ mat2str_size dims ++ "]"
  | Some (Struct fields) => "struct with fields: " ++ strjoin fields ", "
  | Some (Table h w) =>
      "table: " ++ decimal (N.of_nat h) ++ "x" ++ decimal (N.of_nat w)
  | Some (Other cls) => "<" ++ cls ++ ">"
  end.

(** The same for the script that [createMatlabHelperScript] writes: it
    differs on a structure without fields. *)
Definition helper_exported_value (val : option mvalue) : string :=
  match val with
  | Some (Struct []) => "struct (empty)"
  | _ => exported_value val
  end.

(** One entry of [whos], and one exported record. *)
Record Whos : Type := { var_name : string; var_size : list nat; var_class : string }.

Record Exported : Type := {
  name : string;
  size : string;
  class : string;
  value : string
}.

Definition export_variable (w : Whos) (val : option mvalue) : Exported :=
  {| name := var_name w; size := mat2str_size (var_size w);
     class := var_class w; value := exported_value val |}.

(** A record of the script that [createMatlabHelperScript] writes.  That
    script assigns [class] inside the [try] block, after [evalin]: when
    [evalin] fails the field is left empty. *)
Record HelperExported : Type := {
  h_name : string;
  h_size : string;
  h_class : option string;
  h_value : string
}.

Definition helper_export_variable (w : Whos) (val : option mvalue) : HelperExported :=
  {| h_name := var_name w; h_size := mat2str_size (var_size w);
     h_class := match val with
                | Some (Num a) =>
                    Some (if num_complex a then "complex" else var_class w)
                | Some _ => Some (var_class w)
                | None => None
                end;
     h_value := helper_exported_value val |}.

(** [export_workspace]: one record per entry of [whos], in order.  Each
    entry comes with what [evalin] returns for it. *)
Definition export_workspace (base : list (Whos * option mvalue)) : list Exported :=
  map (fun entry => export_variable (fst entry) (snd entry)) base.

Definition helper_export_workspace (base : list (Whos * option mvalue))
  : list HelperExported :=
  map (fun entry => helper_export_variable (fst entry) (snd entry)) base.

End Producer.

(** ** Snapshots used as examples *)

Module Snapshots.
Import Js Connection.

(** A string literal of this file cannot hold a double quote legibly, so
    JSON text is written with apostrophes: [text] turns each into a double
    quote. *)
Fixpoint text (s : string) : string :=
  match s with
  | EmptyString => EmptyString
  | String c rest => String (if Ascii.eqb c "'" then "034"%char else c) (text rest)
  end.

(** The example snapshot of the specification, and one with no variables. *)
Definition example_snapshot : string :=
  text "{'variables':[{'name':'x','size':'[1 1]','class':'double','value':'5'}],'timestamp':'t'}".

Definition empty_snapshot : string := text "{'variables':[]}".

Definition snapshot_path : string := "/project/.vscode/matlab_workspace.json".

Definition connection : MatlabConnection := {| workspaceFile := Some snapshot_path |}.

(** A file system that holds [content] at the snapshot path and nothing else. *)
Definition disk (content : string) : filesystem :=
  fun path => if String.eqb path snapshot_path then Content content else Absent.

Section Parsed.
Context `{NumberOps}.

(** What [JSON.parse] makes of [example_snapshot] and of [empty_snapshot]. *)
Definition example_record : json :=
  JObj [ ("name", JStr "x"); ("size", JStr "[1 1]");
         ("class", JStr "double"); ("value", JStr "5") ].

Definition example_data : json :=
  JObj [ ("variables", JArr [ example_record ]); ("timestamp", JStr "t") ].

Definition empty_data : json := JObj [ ("variables", JArr []) ].

(** A record given by its four fields. *)
Definition record (n s c : string) (v : json) : json :=
  JObj [ ("name", JStr n); ("size", JStr s); ("class", JStr c); ("value", v) ].

End Parsed.

(** A string of [n] copies of a character. *)
Fixpoint replicate (n : nat) (c : ascii) : string :=
  match n with
  | O => EmptyString
  | S n' => String c (replicate n' c)
  end.

End Snapshots.

(** ** A reference host

    The statements below hold for any number type and any [JSON.parse].
    To run the program on concrete snapshots, this module supplies one
    host: integers for numbers, and a parser for the part of JSON that has
    integer numbers, 8-bit text and no [\u] escapes; it rejects everything
    else, which is the only respect in which it is not [JSON.parse]. *)

Module Reference.
Import Js Connection Snapshots.

#[export] Instance integers : NumberOps := {|
  number := Z;
  Number_toString := fun z =>
    if z <? 0 then "-" ++ decimal (Z.to_N (- z)) else decimal (Z.to_N z);
  Number_isZero := fun z => z =? 0
|}.

Definition is_json_space (c : ascii) : bool :=
  (code c =? 32)%nat || (code c =? 9)%nat || (code c =? 10)%nat || (code c =? 13)%nat.

Fixpoint skip_space (s : string) : string :=
  match s with
  | EmptyString => EmptyString
  | String c rest => if is_json_space c then skip_space rest else s
  end.

Definition unescape (c : ascii) : option ascii :=
  if Ascii.eqb c "034" then Some "034"%char
  else if Ascii.eqb c "\" then Some "\"%char
  else if Ascii.eqb c "/" then Some "/"%char
  else if Ascii.eqb c "b" then Some "008"%char
  else if Ascii.eqb c "f" then Some "012"%char
  else if Ascii.eqb c "n" then Some "010"%char
  else if Ascii.eqb c "r" then Some "013"%char
  else if Ascii.eqb c "t" then Some "009"%char
  else None.

(** The characters of a string literal, after its opening quote. *)
Fixpoint parse_chars (s : string) : option (string * string) :=
  match s with
  | EmptyString => None
  | String c rest =>
      if Ascii.eqb c "034" then Some (EmptyString, rest)
      else if Ascii.eqb c "\" then
        match rest with
        | String e rest' =>
            match unescape e, parse_chars rest' with
            | Some c', Some (t, r) => Some (String c' t, r)
            | _, _ => None
            end
        | EmptyString => None
        end
      else if (code c <? 32)%nat then None
      else match parse_chars rest with
           | Some (t, r) => Some (String c t, r)
           | None => None
           end
  end.

Definition starts_fraction_or_exponent (s : string) : bool :=
  match s with
  | String c _ => Ascii.eqb c "." || Ascii.eqb c "e" || Ascii.eqb c "E"
  | EmptyString => false
  end.

(** An integer literal: digits without a superfluous leading zero. *)
Definition parse_digits (s : string) : option (N * string) :=
  let '(d, rest) := span is_digit s in
  if is_empty d then None
  else if startsWith d "0" && (1 <? String.length d)%nat then None
  else if starts_fraction_or_exponent rest then None
  else Some (parseInt d, rest).

Definition parse_number (s : string) : option (Z * string) :=
  match s with
  | String c rest =>
      if Ascii.eqb c "-" then
        match parse_digits rest with
        | Some (n, r) => Some (- Z.of_N n, r)
        | None => None
        end
      else
        match parse_digits s with
        | Some (n, r) => Some (Z.of_N n, r)
        | None => None
        end
  | EmptyString => None
  end.

Definition drop (n : nat) (s : string) : string :=
  String.substring n (String.length s - n) s.

Fixpoint parse_value (fuel : nat) (s : string) {struct fuel} : option (json * string) :=
  match fuel with
  | O => None
  | S fuel' =>
      match s with
      | EmptyString => None
      | String c rest =>
          if Ascii.eqb c "{" then
            match skip_space rest with
            | String c' rest' =>
                if Ascii.eqb c' "}" then Some (JObj [], rest')
                else match parse_members fuel' (skip_space rest) with
                     | Some (ms, r) => Some (JObj ms, r)
                     | None => None
                     end
            | EmptyString => None
            end
          else if Ascii.eqb c "[" then
            match skip_space rest with
            | String c' rest' =>
                if Ascii.eqb c' "]" then Some (JArr [], rest')
                else match parse_elements fuel' (skip_space rest) with
                     | Some (vs, r) => Some (JArr vs, r)
                     | None => None
                     end
            | EmptyString => None
            end
          else if Ascii.eqb c "034" then
            match parse_chars rest with
            | Some (t, r) => Some (JStr t, r)
            | None => None
            end
          else if startsWith s "null" then Some (JNull, drop 4 s)
          else if startsWith s "true" then Some (JBool true, drop 4 s)
          else if startsWith s "false" then Some (JBool false, drop 5 s)
          else match parse_number s with
               | Some (z, r) => Some (JNum z, r)
               | None => None
               end
      end
  end
with parse_elements (fuel : nat) (s : string) {struct fuel} : option (list json * string) :=
  match fuel with
  | O => None
  | S fuel' =>
      match parse_value fuel' s with
      | Some (v, r) =>
          match skip_space r with
          | String c r' =>
              if Ascii.eqb c "," then
                match parse_elements fuel' (skip_space r') with
                | Some (vs, r'') => Some (v :: vs, r'')
                | None => None
                end
              else if Ascii.eqb c "]" then Some ([v], r')
              else None
          | EmptyString => None
          end
      | None => None
      end
  end
with parse_members (fuel : nat) (s : string) {struct fuel}
  : option (list (string * json) * string) :=
  match fuel with
  | O => None
  | S fuel' =>
      match s with
      | String q after_quote =>
          if Ascii.eqb q "034" then
            match parse_chars after_quote with
            | Some (key, r0) =>
                match skip_space r0 with
                | String colon r1 =>
                    if Ascii.eqb colon ":" then
                      match parse_value fuel' (skip_space r1) with
                      | Some (v, r) =>
                          match skip_space r with
                          | String c r' =>
                              if Ascii.eqb c "," then
                                match parse_members fuel' (skip_space r') with
                                | Some (ms, r'') => Some ((key, v) :: ms, r'')
                                | None => None
                                end
                              else if Ascii.eqb c "}" then Some ([(key, v)], r')
                              else None
                          | EmptyString => None
                          end
                      | None => None
                      end
                    else None
                | EmptyString => None
                end
            | None => None
            end
          else None
      | EmptyString => None
      end
  end.

Definition parse (s : string) : option json :=
  match parse_value (S (String.length s)) (skip_space s) with
  | Some (v, rest) => if is_empty (skip_space rest) then Some v else None
  | None => None
  end.

#[export] Instance parser : JsonParser := {| JSON_parse := parse |}.

(** *** Sample inputs *)

Definition one_record (n s c v : string) : string :=
  text ("{'variables':[{'name':'" ++ n ++ "','size':'" ++ s ++ "','class':'"
        ++ c ++ "','value':" ++ v ++ "}]}").

(** An empty character array, a 2-by-3 character matrix, a 2-by-3-by-4
    array, a 3-by-4 matrix whose value is an array, and a short text. *)
Definition empty_text_snapshot : string := one_record "e" "[0 0]" "char" "''".

Definition char_matrix_snapshot : string :=
  one_record "c" "[2 3]" "char" "['abc','def']".

Definition cube_snapshot : string :=
  one_record "m" "[2 3 4]" "double" "'double [24 elements]'".

Definition matrix_snapshot : string :=
  one_record "k" "[3 4]" "double" "[1,2,3,4,5,6,7]".

Definition greeting_snapshot : string := one_record "s" "[1 5]" "char" "'hello'".

Definition variable (n s c : string) (v : option json) : MatlabVariable :=
  {| name := n; size := s; class := c; value := v |}.

Definition terminal (n : string) : Vscode.Terminal :=
  {| Vscode.terminal_name := n; Vscode.sentText := []; Vscode.shown := false |}.

Definition window (folders : list string) (names : list string) : Vscode.Window :=
  {| Vscode.workspaceFolders := folders;
     Vscode.terminals := map terminal names;
     Vscode.messages := []; Vscode.panels := []; Vscode.timeouts := [] |}.

(** A text of 101 characters, and numeric arrays of 12, 5 and 8
    elements, the last of three dimensions. *)
Definition long_text : string := replicate 101 "a".

Definition one_to_five : Producer.Numeric :=
  {| Producer.num_class := "double"; Producer.num_dims := [1; 5]%nat;
     Producer.num_complex := false;
     Producer.num_mat2str := "[1 2 3 4 5]" |}.

Definition small_cube : Producer.Numeric :=
  {| Producer.num_class := "double"; Producer.num_dims := [2; 2; 2]%nat;
     Producer.num_complex := false;
     Producer.num_mat2str := "" |}.

Definition twelve : Producer.Numeric :=
  {| Producer.num_class := "double"; Producer.num_dims := [3; 4]%nat;
     Producer.num_complex := false;
     Producer.num_mat2str := "[1 2 3 4;5 6 7 8;9 10 11 12]" |}.

End Reference.

(** ** Start-up: [initialize] and [createMatlabHelperScript] of
       [src/matlabConnection.ts] *)

Module Startup.
Import Js Connection Snapshots.

(** The disk as the start-up code sees it: files, directories, and the
    paths at which creating or writing throws. *)
Record Disk : Type := {
  files : filesystem;
  directories : string -> bool;
  refuses : string -> bool
}.

(** [fs.existsSync] *)
Definition existsSync (d : Disk) (path : string) : bool :=
  directories d path ||
  match files d path with Absent => false | _ => true end.

(** [fs.writeFileSync] *)
Definition writeFileSync (path content : string) (d : Disk) : completion Disk :=
  if refuses d path then Throw SystemError
  else Normal {| files := fun p => if String.eqb p path then Content content
                                   else files d p;
                 directories := directories d;
                 refuses := refuses d |}.

(** [fs.mkdirSync(path, { recursive: true })].  The missing ancestors are
    created as well; the program never looks at them. *)
Definition mkdirSync (path : string) (d : Disk) : completion Disk :=
  if refuses d path then Throw SystemError
  else Normal {| files := files d;
                 directories := fun p => String.eqb p path || directories d p;
                 refuses := refuses d |}.

(** The text of the helper script. *)
Definition scriptContent : string :=
"function export_workspace()
    % Export MATLAB workspace variables to JSON for VSCode extension
    % This function is automatically called to update the workspace view

    vars = evalin('base', 'whos');
    varData = struct([]);

    for i = 1:length(vars)
        varData(i).name = vars(i).name;
        varData(i).size = mat2str(vars(i).size);

        % Get the actual value to check if it's complex
        try
            val = evalin('base', vars(i).name);

            % Override class for complex numbers
            if isnumeric(val) && ~isreal(val)
                varData(i).class = 'complex';
            else
                varData(i).class = vars(i).class;
            end

            if isnumeric(val) || islogical(val)
                if numel(val) <= 10
                    varData(i).value = mat2str(val);
                else
                    varData(i).value = sprintf('%s [%d elements]', class(val), numel(val));
                end
            elseif ischar(val) || isstring(val)
                if length(val) <= 100
                    varData(i).value = char(val);
                else
                    varData(i).value = [char(val(1:100)), '...'];
                end
            elseif iscell(val)
                varData(i).value = sprintf('cell array [%s]', mat2str(size(val)));
            elseif isstruct(val)
                fields = fieldnames(val);
                if ~isempty(fields)
                    varData(i).value = sprintf('struct with fields: %s', strjoin(fields, ', '));
                else
                    varData(i).value = 'struct (empty)';
                end
            elseif istable(val)
                varData(i).value = sprintf('table: %dx%d', size(val, 1), size(val, 2));
            else
                varData(i).value = sprintf('<%s>', class(val));
            end
        catch
            varData(i).value = '<error reading value>';
        end
    end

    % Convert struct array to cell array to force JSON array output
    if isempty(varData)
        output.variables = [];
    else
        varCell = cell(length(varData), 1);
        for i = 1:length(varData)
            varCell{i} = varData(i);
        end
        output.variables = varCell;
    end
    output.timestamp = char(datetime('now'));

    jsonStr = jsonencode(output);

    outputFile = fullfile(pwd, '.vscode', 'matlab_workspace.json');

    % Create directory if it doesn't exist
    if ~exist(fullfile(pwd, '.vscode'), 'dir')
        mkdir(fullfile(pwd, '.vscode'));
    end

    fid = fopen(outputFile, 'w');
    if fid == -1
        error('Could not open file for writing: %s', outputFile);
    end
    fprintf(fid, '%s', jsonStr);
    fclose(fid);

    fprintf('Workspace exported: %d variables\n', length(vars));
end
".

(** [JSON.stringify({ variables: [], timestamp })] for an ISO time stamp,
    which has no character that needs an escape. *)
Definition cleared (timestamp : string) : string :=
  text "{'variables':[],'timestamp':'" ++ timestamp ++ text "'}".

Section Paths.
(** [path.join] *)
Variable join : string -> string -> string.

Definition vscodePath (folder : string) : string := join folder ".vscode".

Definition snapshotPath (folder : string) : string :=
  join (vscodePath folder) "matlab_workspace.json".

Definition scriptPath (folder : string) : string :=
  join (vscodePath folder) "export_workspace.m".

(** [createMatlabHelperScript] *)
Definition createMatlabHelperScript (folders : list string) (d : Disk)
  : completion Disk :=
  match folders with
  | [] => Normal d
  | folder :: _ =>
      if existsSync d (scriptPath folder) then Normal d
      else writeFileSync (scriptPath folder) scriptContent d
  end.

(** What [initialize] leaves behind: the connection, the disk, and
    [isInitialized].  The promise is rejected, and [isInitialized] stays
    false, when [mkdirSync] or the writing of the script throws. *)
Record Started : Type := {
  connection : MatlabConnection;
  disk : Disk;
  isInitialized : bool
}.

(** [initialize]; [timestamp] is [new Date().toISOString()]. *)
Definition initialize (folders : list string) (timestamp : string) (d : Disk)
  : Started :=
  match folders with
  | [] => {| connection := {| workspaceFile := None |}; disk := d;
             isInitialized := false |}
  | folder :: _ =>
      let this := {| workspaceFile := Some (snapshotPath folder) |} in
      match (if existsSync d (vscodePath folder) then Normal d
             else mkdirSync (vscodePath folder) d) with
      | Throw _ => {| connection := this; disk := d; isInitialized := false |}
      | Normal d1 =>
          let d2 :=
            if existsSync d1 (snapshotPath folder) then
              match writeFileSync (snapshotPath folder) (cleared timestamp) d1 with
              | Normal d' => d'
              | Throw _ => d1          (* caught and logged *)
              end
            else d1 in
          match createMatlabHelperScript folders d2 with
          | Throw _ => {| connection := this; disk := d2; isInitialized := false |}
          | Normal d3 => {| connection := this; disk := d3; isInitialized := true |}
          end
      end
  end.

End Paths.

End Startup.

(** ** The commands of [src/extension.ts] *)

Module Commands.
Import Js Vscode Connection Provider.

(** The editor as the commands see it. *)
Record Editor : Type := {
  window : Window;
  clipboard : option string;
  refreshes : nat                 (* calls of [workspaceProvider.refresh] *)
}.

Definition with_window (w : Window) (e : Editor) : Editor :=
  {| window := w; clipboard := clipboard e; refreshes := refreshes e |}.

Definition refresh (e : Editor) : Editor :=
  {| window := window e; clipboard := clipboard e; refreshes := S (refreshes e) |}.

Definition confirmation : Message :=
  Warning "Are you sure you want to clear all MATLAB workspace variables?"
          ["Yes"; "No"].

(** [matlabWorkspace.clearAll]; [answer] is the button picked, if any. *)
Definition clearAll (answer : option string) (e : Editor) : Editor :=
  let e1 := with_window (showMessage confirmation (window e)) e in
  match answer with
  | Some a =>
      if String.eqb a "Yes"
      then refresh (with_window (clearWorkspace (window e1)) e1)
      else e1
  | None => e1
  end.

(** [matlabWorkspace.copyValue] *)
Definition copyValue (item : option WorkspaceItem) (e : Editor) : Editor :=
  match item with
  | Some it =>
      match value it with
      | Some v =>
          if truthy_string v then
            {| window := showMessage (Information ("Copied: " ++ v) []) (window e);
               clipboard := Some v;
               refreshes := refreshes e |}
          else e
      | None => e
      end
  | None => e
  end.

(** [matlabWorkspace.deleteVariable] *)
Definition deleteVariableCommand (item : option WorkspaceItem) (e : Editor) : Editor :=
  match item with
  | Some it =>
      match variableName it with
      | Some n =>
          if truthy_string n then
            let e1 := refresh (with_window (deleteVariable n (window e)) e) in
            with_window
              (showMessage (Information ("Deleted variable: " ++ n) []) (window e1))
              e1
          else e
      | None => e
      end
  | None => e
  end.

(** The oldest [setTimeout] of the connection comes due; [choice] is what
    the user picks if [triggerWorkspaceExport] then asks. *)
Definition timeout_due (choice : option string) (w : Window) : Window :=
  match timeouts w with
  | [] => w
  | (_, CallTriggerWorkspaceExport) :: rest =>
      triggerWorkspaceExport choice
        {| workspaceFolders := workspaceFolders w; terminals := terminals w;
           messages := messages w; panels := panels w; timeouts := rest |}
  end.

End Commands.

(** ** From the producer to the tree view *)

Module Handoff.
Import Js Connection Provider Producer.

(** A dimension as [mat2str] prints it. *)
Definition numeral (d : nat) : string := decimal (N.of_nat d).

(** Any code unit but the opening bracket. *)
Definition not_bracket (c : ascii) : bool := negb (Ascii.eqb c "[").

Section Values.
Context `{NumberOps}.

(** The fields of the structure array [varData] appear as the loop assigns
    them: [name] and [size] first, then [class] and [value] in the order in
    which the first record got them.  A record whose [evalin] failed has
    its [class] empty once another record has one, and has no such field
    when no record has one. *)
Definition class_assigned (records : list HelperExported) : bool :=
  existsb (fun r => match h_class r with Some _ => true | None => false end) records.

Definition class_before_value (records : list HelperExported) : bool :=
  match records with
  | r :: _ => match h_class r with Some _ => true | None => false end
  | [] => false
  end.

(** What [JSON.parse] reads from what [jsonencode] writes for one record
    of the helper script, [records] being all of them: a structure becomes
    an object with its fields in order, a character row a string, an empty
    field an empty array. *)
Definition record_json (records : list HelperExported) (r : HelperExported) : json :=
  let class_member :=
    match h_class r with
    | Some c => [("class", JStr c)]
    | None => if class_assigned records then [("class", JArr [])] else []
    end in
  let value_member := [("value", JStr (h_value r))] in
  JObj ([ ("name", JStr (h_name r)); ("size", JStr (h_size r)) ]
        ++ (if class_before_value records
            then class_member ++ value_member
            else value_member ++ class_member))%list.

(** The same for the whole output: [variables] is a cell array, or [[]]
    when there is no variable: an array in either case. *)
Definition snapshot_json (records : list HelperExported) (timestamp : string) : json :=
  JObj [ ("variables", JArr (map (record_json records) records));
         ("timestamp", JStr timestamp) ].

(** The item that the callback of [variables.map] builds from a record
    whose [class] is assigned. *)
Definition shown (r : HelperExported) : WorkspaceItem :=
  item_for {| Connection.name := h_name r; Connection.size := h_size r;
              Connection.class := default "" (h_class r);
              Connection.value := Some (JStr (h_value r)) |}
           (if (100 <? String.length (h_value r))%nat
            then substring0 97 (h_value r) ++ "..." else h_value r).

End Values.

End Handoff.

(** ** Observations on a run of the auto-setup: clock and notices *)

Module Observations.
Import Js Vscode Extension.

(** When the [k]-th setup command is due, in milliseconds after the
    terminal opened: 3 s, 7 s, 12 s, ..., 75 s. *)
Definition due_of (k : nat) : Z := 500 * Z.of_nat k * (Z.of_nat k + 5).

Definition cleanup_due : Z := 60000.

Definition is_successful (m : Message) : bool :=
  match m with
  | Information t _ => String.eqb t "MATLAB Workspace Viewer: Auto-setup successful!"
  | _ => false
  end.

Definition is_waiting (m : Message) : bool :=
  match m with
  | Information t _ =>
      String.eqb t "MATLAB Workspace Viewer: Waiting for MATLAB to start..."
  | _ => false
  end.

Definition successes (s : Setup) : nat :=
  length (List.filter is_successful (notices s)).

Definition waitings (s : Setup) : nat :=
  length (List.filter is_waiting (notices s)).

(** The clean-up timer is still to fire. *)
Definition cleanup_pending (s : Setup) : bool :=
  existsb (fun p => negb (is_retry p)) (pending s).

(** What holds of the clock and the timers in every state of a run: the
    retry timer is due at [due_of] of the attempt count, the clean-up timer
    at 60 s, timers are kept soonest first, and the clock is behind them. *)
Record clock_invariant (s : Setup) : Prop := {
  timers :
    pending s = [] \/
    pending s = [(cleanup_due, CleanUp)] \/
    pending s = [(due_of (attemptCount s), Retry)] \/
    (pending s = [(due_of (attemptCount s), Retry); (cleanup_due, CleanUp)]
     /\ due_of (attemptCount s) < cleanup_due) \/
    (pending s = [(cleanup_due, CleanUp); (due_of (attemptCount s), Retry)]
     /\ cleanup_due <= due_of (attemptCount s));
  attempts : (1 <= attemptCount s <= maxAttempts)%nat;
  clock_behind : forall due t, In (due, t) (pending s) -> now s <= due;
  clock_before_cleanup : cleanup_pending s = true -> now s < cleanup_due;
  disposed_after_cleanup : cleanup_pending s = false -> disposed s = true;
  clock_bound : 0 <= now s <= due_of maxAttempts
}.

(** What holds of the notices in every state of a run. *)
Record notice_invariant (s : Setup) : Prop := {
  success_once : (successes s <= 1)%nat;
  success_means_complete : successes s = 1%nat -> setupComplete s = true;
  warning_means_disposed :
    (1 <= warnings s)%nat -> disposed s = true /\ successes s = 0%nat;
  waiting_with_first_command :
    waitings s = Nat.min 1 (length (sent s))
}.

End Observations.

(** ** More sample inputs *)

Module Samples.
Import Js Connection Provider Producer Snapshots Reference.

(** [path.join] on names that need no normalising. *)
Definition join (a b : string) : string := a ++ "/" ++ b.

(** A project that an earlier session has left a snapshot in, and the
    same after [createMatlabHelperScript]. *)
Definition used_project : Startup.Disk :=
  {| Startup.files := Snapshots.disk example_snapshot;
     Startup.directories :=
       fun p => String.eqb p "/project" || String.eqb p "/project/.vscode";
     Startup.refuses := fun _ => false |}.

Definition with_script : Startup.Disk :=
  {| Startup.files :=
       fun p => if String.eqb p "/project/.vscode/export_workspace.m"
                then Content Startup.scriptContent
                else Startup.files used_project p;
     Startup.directories := Startup.directories used_project;
     Startup.refuses := Startup.refuses used_project |}.

Definition started_at : string := "2024-01-01T00:00:00.000Z".

(** An editor with the given terminals and a workspace folder. *)
Definition editor (names : list string) : Commands.Editor :=
  {| Commands.window := Reference.window ["/project"] names;
     Commands.clipboard := None;
     Commands.refreshes := 0 |}.

(** A snapshot whose [variables] member is one record, not an array. *)
Definition lone_record_snapshot : string :=
  text "{'variables':{'name':'x','size':'[1 1]','class':'double','value':'5'}}".

(** The scalar [x = 5] of the base workspace, and the entries of [whos]
    for it, for the row [v = 1:5] and for a text of 101 characters. *)
Definition five : Numeric :=
  {| num_class := "double"; num_dims := [1; 1]%nat; num_complex := false;
     num_mat2str := "5" |}.

Definition whos_x : Whos :=
  {| var_name := "x"; var_size := [1; 1]%nat; var_class := "double" |}.

Definition whos_c : Whos :=
  {| var_name := "c"; var_size := [2; 2; 2]%nat; var_class := "double" |}.

(** What the helper script writes for [x = 5] and [c = zeros(2,2,2)]. *)
Definition cube_workspace_snapshot : string :=
  text ("{'variables':["
        ++ "{'name':'x','size':'[1 1]','class':'double','value':'5'},"
        ++ "{'name':'c','size':'[2 2 2]','class':'double',"
        ++ "'value':'<error reading value>'}],'timestamp':'t'}").

Definition whos_v : Whos :=
  {| var_name := "v"; var_size := [1; 5]%nat; var_class := "double" |}.

Definition whos_t : Whos :=
  {| var_name := "t"; var_size := [1; 101]%nat; var_class := "char" |}.

Definition long_variable : MatlabVariable :=
  variable "t" "[1 101]" "char" (Some (JStr long_text)).

Definition item_x : WorkspaceItem :=
  new_WorkspaceItem "x" NoneState (Some "x") (Some "5") (Some "double") (Some "[1 1]").

End Samples.

(** * Properties *)

(** ** Strings, the size pattern and decimal numerals *)

Module JsFacts.
Import Js.

Lemma append_assoc (a b c : string) : (a ++ b) ++ c = a ++ b ++ c.
Proof. induction a as [|x a IH]; simpl; [reflexivity | now rewrite IH]. Qed.

Lemma append_empty_r (a : string) : a ++ "" = a.
Proof. induction a as [|x a IH]; simpl; [reflexivity | now rewrite IH]. Qed.

Lemma length_append (a b : string) :
  String.length (a ++ b) = (String.length a + String.length b)%nat.
Proof. induction a as [|x a IH]; simpl; [reflexivity | now rewrite IH]. Qed.

(** [span] splits its argument, and the first part satisfies the test. *)
Lemma span_split p s a b : span p s = (a, b) -> s = a ++ b /\ every p a = true.
Proof.
  revert a b. induction s as [|c s IH]; simpl; intros a b E.
  - inversion E. now split.
  - destruct (p c) eqn:Pc.
    + destruct (span p s) as [a' b'] eqn:E'. injection E as <- <-.
      destruct (IH a' b' eq_refl) as [-> Ha]. simpl. now rewrite Pc, Ha.
    + injection E as <- <-. now split.
Qed.

(** What follows the first part does not satisfy the test. *)
Lemma span_stops p s a b :
  span p s = (a, b) ->
  match b with EmptyString => True | String c _ => p c = false end.
Proof.
  revert a b. induction s as [|c s IH]; simpl; intros a b E.
  - now inversion E.
  - destruct (p c) eqn:Pc.
    + destruct (span p s) as [a' b'] eqn:E'. injection E as <- <-.
      now apply (IH a' b').
    + injection E as <- <-. exact Pc.
Qed.

(** A run followed by something that fails the test is what [span] takes. *)
Lemma span_run p a b :
  every p a = true ->
  match b with EmptyString => True | String c _ => p c = false end ->
  span p (a ++ b) = (a, b).
Proof.
  intros Ha Hb. induction a as [|c a IH]; simpl in *.
  - destruct b as [|c b]; simpl; [reflexivity | now rewrite Hb].
  - apply andb_prop in Ha as [Pc Ha]. now rewrite Pc, (IH Ha).
Qed.

Lemma is_empty_true s : is_empty s = true <-> s = "".
Proof. destruct s; simpl; split; congruence. Qed.

Lemma is_empty_false s : is_empty s = false <-> s <> "".
Proof. destruct s; simpl; split; congruence. Qed.

Lemma digit_not_space c : is_digit c = true -> is_space c = false.
Proof.
  unfold is_digit, is_space. intros D.
  apply andb_prop in D as [A B].
  apply Nat.leb_le in A. apply Nat.leb_le in B.
  repeat match goal with
  | |- context [(?x <=? ?y)%nat] => destruct (Nat.leb_spec x y)
  | |- context [(?x =? ?y)%nat] => destruct (Nat.eqb_spec x y)
  end; simpl; try reflexivity; lia.
Qed.

Lemma space_not_digit c : is_space c = true -> is_digit c = false.
Proof.
  intros S. destruct (is_digit c) eqn:D; [|reflexivity].
  apply digit_not_space in D. congruence.
Qed.

Lemma run_head p s : run_of p s -> exists c r, s = String c r /\ p c = true.
Proof.
  intros [Hne He]. destruct s as [|c r]; [congruence|].
  simpl in He. apply andb_prop in He as [Pc _]. eauto.
Qed.

Lemma bracket_not_digit : is_digit "]" = false.
Proof. reflexivity. Qed.

(** The matcher accepts every string that begins with a match, and returns
    its captures. *)
Lemma match_after_bracket_complete d1 w d2 post :
  run_of is_digit d1 -> run_of is_space w -> run_of is_digit d2 ->
  match_after_bracket (d1 ++ w ++ d2 ++ String "]" post) = Some (d1, d2).
Proof.
  intros [N1 E1] Hw [N2 E2].
  destruct (run_head _ _ Hw) as (cw & rw & -> & Pw). destruct Hw as [Nw Ew].
  destruct (run_head _ _ (conj N2 E2)) as (c2 & r2 & -> & P2).
  unfold match_after_bracket.
  rewrite (span_run is_digit d1); [| assumption | simpl; now apply space_not_digit].
  apply is_empty_false in N1. rewrite N1.
  rewrite (span_run is_space (String cw rw)); [| assumption | simpl; now apply digit_not_space].
  cbn [is_empty].
  rewrite (span_run is_digit (String c2 r2)); [| assumption | reflexivity].
  reflexivity.
Qed.

(** Whatever the matcher accepts begins with a match. *)
Lemma match_after_bracket_sound s d1 d2 :
  match_after_bracket s = Some (d1, d2) -> size_pattern_at (String "[" s) d1 d2.
Proof.
  unfold match_after_bracket. intros M.
  destruct (span is_digit s) as [a r1] eqn:S1.
  destruct (is_empty a) eqn:Ea; [discriminate|].
  destruct (span is_space r1) as [w r2] eqn:S2.
  destruct (is_empty w) eqn:Ew; [discriminate|].
  destruct (span is_digit r2) as [b r3] eqn:S3.
  destruct (is_empty b) eqn:Eb; [discriminate|].
  destruct r3 as [|c post]; [discriminate|].
  destruct (Ascii.eqb_spec c "]"); [|discriminate]. inversion M; subst.
  apply span_split in S1 as [-> H1], S2 as [-> H2], S3 as [-> H3].
  exists w, post. repeat split; try (now apply is_empty_false); assumption.
Qed.

Lemma match_size_sound s d1 d2 :
  match_size s = Some (d1, d2) ->
  exists pre rest, s = pre ++ rest /\ size_pattern_at rest d1 d2.
Proof.
  induction s as [|c s IH]; simpl; [discriminate|]. intros M.
  assert (tail : match_size s = Some (d1, d2) ->
                 exists pre rest, String c s = pre ++ rest /\ size_pattern_at rest d1 d2).
  { intros M'. destruct (IH M') as (pre & rest & -> & P).
    exists (String c pre), rest. now split. }
  destruct (Ascii.eqb_spec c "["); [subst c|now apply tail].
  destruct (match_after_bracket s) as [[g1 g2]|] eqn:A; [|now apply tail].
  inversion M; subst. exists "", (String "[" s). split; [reflexivity|].
  now apply match_after_bracket_sound.
Qed.

Lemma match_at_start rest d1 d2 :
  size_pattern_at rest d1 d2 -> match_size rest = Some (d1, d2).
Proof.
  intros (w & post & H1 & Hw & H2 & ->).
  change (match_size (String "[" (d1 ++ w ++ d2 ++ String "]" post)) = Some (d1, d2)).
  cbn [match_size]. rewrite Ascii.eqb_refl.
  now rewrite match_after_bracket_complete.
Qed.

Lemma match_size_complete s : size_pattern_occurs s -> match_size s <> None.
Proof.
  intros (pre & rest & d1 & d2 & -> & P).
  induction pre as [|c pre IH]; simpl.
  - rewrite (match_at_start _ _ _ P). discriminate.
  - destruct (Ascii.eqb c "["); [|assumption].
    destruct (match_after_bracket (pre ++ rest)); [discriminate | assumption].
Qed.

(** [match_size] returns [null] exactly on the strings in which the
    pattern does not occur. *)
Lemma match_size_None s : match_size s = None <-> ~ size_pattern_occurs s.
Proof.
  split.
  - intros M O. now apply (match_size_complete s O).
  - intros O. destruct (match_size s) as [[d1 d2]|] eqn:M; [|reflexivity].
    exfalso. apply O. destruct (match_size_sound _ _ _ M) as (pre & rest & E & P).
    now exists pre, rest, d1, d2.
Qed.

(** Decimal numerals. *)
Lemma every_digit_uint d : every is_digit (NilEmpty.string_of_uint d) = true.
Proof. induction d; simpl; auto. Qed.

Lemma decimal_as_uint n : decimal n = NilEmpty.string_of_uint (N.to_uint n).
Proof.
  unfold decimal, NilZero.string_of_uint.
  destruct (N.to_uint n) eqn:E; try reflexivity.
  destruct n as [|p]; [discriminate|].
  now apply DecimalPos.Unsigned.to_uint_nonnil in E.
Qed.

Lemma decimal_run n : run_of is_digit (decimal n).
Proof.
  rewrite decimal_as_uint. split; [|apply every_digit_uint].
  destruct n as [|p]; [discriminate|]. simpl.
  assert (Hn := DecimalPos.Unsigned.to_uint_nonnil p).
  destruct (Pos.to_uint p); simpl; congruence.
Qed.

(** [parseInt] reads back what [decimal] prints. *)
Lemma parseInt_decimal n : parseInt (decimal n) = n.
Proof.
  unfold parseInt. rewrite decimal_as_uint, NilEmpty.usu.
  apply DecimalN.Unsigned.of_to.
Qed.

Lemma space_run : run_of is_space " ".
Proof. split; [discriminate | reflexivity]. Qed.



End JsFacts.

(** ** Reading the snapshot *)

Module ConnectionFacts.
Import Js Connection JsFacts.

Section Reading.
Context `{NumberOps} `{!JsonParser}.

(** A scalar always has a string form. *)
Lemma ToString_scalar v : scalar v = true -> exists s, ToString v = Normal s.
Proof. destruct v as [ | [|] | | | | ]; simpl; try discriminate; eauto. Qed.

Lemma element_string_scalar v : scalar v = true -> exists s, element_string v = Normal s.
Proof. destruct v as [ | [|] | | | | ]; simpl; try discriminate; eauto. Qed.

Lemma join_by_cons {A} (f : A -> completion string) sep x rest :
  join_by f sep (x :: rest) =
  let* s := f x in
  match rest with
  | [] => Normal s
  | _ => let* r := join_by f sep rest in Normal (s ++ sep ++ r)
  end.
Proof. reflexivity. Qed.

Lemma Array_join_scalars sep l :
  forallb scalar l = true -> exists s, Array_join sep l = Normal s.
Proof.
  unfold Array_join. induction l as [|x l IH]; [simpl; eauto|].
  intros A. apply andb_prop in A as [Hx Hl]. rewrite join_by_cons.
  destruct (element_string_scalar x Hx) as [sx ->]. cbn [bind].
  destruct l as [|y l]; [eauto|].
  destruct (IH Hl) as [sl ->]. cbn [bind]. eauto.
Qed.

(** Joining strings is [String.concat]. *)
Lemma Array_join_strings sep (ss : list string) :
  Array_join sep (map JStr ss) = Normal (String.concat sep ss).
Proof.
  unfold Array_join. induction ss as [|x ss IH]; [reflexivity|].
  cbn [map]. rewrite join_by_cons. cbn [element_string ToString bind].
  destruct ss as [|y ss]; [reflexivity|].
  rewrite IH. reflexivity.
Qed.

(** [getWorkspaceVariables] never throws. *)
Lemma getWorkspaceVariables_returns fs this :
  exists v, getWorkspaceVariables fs this = Normal v.
Proof.
  unfold getWorkspaceVariables. destruct (workspaceFile this); [|eauto].
  match goal with |- context [try_catch ?b _] => destruct b end; simpl; eauto.
Qed.

(** Reading a snapshot whose [variables] member is an array returns that
    array. *)
Lemma getWorkspaceVariables_array fs this path content data l :
  workspaceFile this = Some path ->
  fs path = Content content ->
  JSON_parse content = Some data ->
  get data "variables" = Normal (Some (JArr l)) ->
  getWorkspaceVariables fs this = Normal (JArr l).
Proof.
  intros W F P G. unfold getWorkspaceVariables, variables_or_empty.
  rewrite W, F, P. simpl. rewrite G. reflexivity.
Qed.

(** C2.  When the snapshot file is missing, or its content is not
    parsable JSON, [getWorkspaceVariables] returns the empty list and does
    not throw.  (Without a configured path it returns the empty list as
    well.) *)
Theorem missing_or_unparsable_snapshot fs this :
  (forall path, workspaceFile this = Some path ->
     fs path = Absent \/
     exists content, fs path = Content content /\ JSON_parse content = None) ->
  getWorkspaceVariables fs this = Normal (JArr []).
Proof.
  intros M. unfold getWorkspaceVariables.
  destruct (workspaceFile this) as [path|]; [|reflexivity].
  destruct (M path eq_refl) as [A | (content & C & P)].
  - now rewrite A.
  - now rewrite C, P.
Qed.

(** A file that exists but cannot be read is treated alike. *)
Lemma unreadable_snapshot fs this path :
  workspaceFile this = Some path -> fs path = Unreadable ->
  getWorkspaceVariables fs this = Normal (JArr []).
Proof. intros W U. unfold getWorkspaceVariables. now rewrite W, U. Qed.

End Reading.
End ConnectionFacts.

(** ** Items and their descriptions *)

Module ProviderFacts.
Import Js Connection Provider JsFacts ConnectionFacts Snapshots.

(** [String.prototype.substring] from the start takes a prefix. *)
Lemma substring0_prefix n s :
  (n <= String.length s)%nat ->
  exists rest, s = substring0 n s ++ rest /\ String.length (substring0 n s) = n.
Proof.
  unfold substring0. revert s. induction n as [|n IH]; intros s L.
  - exists s. destruct s; now split.
  - destruct s as [|c s]; simpl in L; [lia|].
    destruct (IH s) as (rest & E & Len); [lia|].
    exists rest. simpl. split; [now rewrite <- E | now rewrite Len].
Qed.

(** The description depends on three fields only. *)
Lemma getDescription_fields a b :
  value a = value b -> type a = type b -> size a = size b ->
  getDescription a = getDescription b.
Proof.
  intros V T S. unfold getDescription, type_is, value_or_size_and_type, size_and_type.
  now rewrite V, T, S.
Qed.

(** What the constructor stores as description. *)
Lemma description_of_new l cs n v t s :
  description (new_WorkspaceItem l cs (Some n) v t s) =
  if is_empty n then None
  else Some (getDescription (new_WorkspaceItem l cs (Some n) v t s)).
Proof.
  unfold new_WorkspaceItem, truthy_opt, truthy_string.
  destruct (is_empty n); simpl; [reflexivity|].
  apply (f_equal Some), getDescription_fields; reflexivity.
Qed.

Lemma fields_of_new l cs n v t s :
  let it := new_WorkspaceItem l cs n v t s in
  label it = l /\ value it = v /\ type it = t /\ size it = s /\ variableName it = n.
Proof. unfold new_WorkspaceItem. destruct (truthy_opt n); simpl; auto. Qed.

Lemma eqb_neq_false (a b : string) : a <> b -> String.eqb a b = false.
Proof. intros N. now apply String.eqb_neq. Qed.

Section Formatting.
Context `{NumberOps} `{!JsonParser}.

Lemma item_of_formatted mv max dv :
  formatValue mv max = Normal dv -> item_of max mv = Normal (item_for mv dv).
Proof. intros F. unfold item_of. now rewrite F. Qed.

Lemma item_for_description mv dv :
  Connection.name mv <> "" ->
  description (item_for mv dv) = Some (getDescription (item_for mv dv)).
Proof.
  intros N. unfold item_for. rewrite description_of_new.
  apply is_empty_false in N. now rewrite N.
Qed.

(** The description of the item built for a record, spelled out. *)
Lemma getDescription_item_for mv dv :
  let fallback := if is_empty dv
                  then Connection.size mv ++ " " ++ Connection.class mv
                  else dv in
  getDescription (item_for mv dv) =
  if String.eqb (Connection.class mv) "char"
     || String.eqb (Connection.class mv) "string"
  then fallback
  else if truthy_string dv && truthy_string (Connection.size mv) then
    match match_size (Connection.size mv) with
    | Some (g1, g2) =>
        if (parseInt g1 =? 1)%N && (parseInt g2 =? 1)%N
           && negb (String.eqb (Connection.class mv) "struct")
           && negb (String.eqb (Connection.class mv) "cell")
        then dv
        else decimal (parseInt g1) ++ "x" ++ decimal (parseInt g2) ++ " "
             ++ Connection.class mv
    | None => fallback
    end
  else fallback.
Proof.
  intros fallback. subst fallback.
  rewrite (getDescription_fields _
             {| label := ""; collapsibleState := NoneState; variableName := None;
                value := Some dv; type := Some (Connection.class mv);
                size := Some (Connection.size mv); contextValue := None;
                tooltip := None; description := None; iconPath := None |}).
  2-4: unfold item_for, new_WorkspaceItem; now destruct (truthy_opt _).
  unfold getDescription, type_is, value_or_size_and_type, size_and_type,
    truthy_string, interpolate.
  cbn [value type size].
  destruct (String.eqb (Connection.class mv) "char"
            || String.eqb (Connection.class mv) "string");
    destruct (is_empty dv); cbn [negb andb]; reflexivity.
Qed.

Lemma formatValue_string mv max s :
  Connection.value mv = Some (JStr s) ->
  formatValue mv max =
  Normal (if (100 <? String.length s)%nat then substring0 97 s ++ "..." else s).
Proof.
  intros V. unfold formatValue. rewrite V. cbn [ToString bind].
  now destruct (100 <? String.length s)%nat.
Qed.

Lemma formatValue_absent mv max :
  Connection.value mv = None \/ Connection.value mv = Some JNull ->
  formatValue mv max = Normal "".
Proof. intros [V | V]; unfold formatValue; now rewrite V. Qed.

Lemma forallb_firstn {A} (p : A -> bool) n l :
  forallb p l = true -> forallb p (firstn n l) = true.
Proof.
  revert l. induction n as [|n IH]; intros [|x l]; simpl; auto.
  intros E. apply andb_prop in E as [-> E]. now apply IH.
Qed.

(** A displayable value has a display string. *)
Lemma formatValue_displayable mv max :
  displayable (Connection.value mv) = true -> exists dv, formatValue mv max = Normal dv.
Proof.
  unfold formatValue, displayable.
  destruct (Connection.value mv) as [v|]; [|eauto].
  destruct v as [ | b | n | s | l | m ]; try discriminate; intros D.
  - eauto.
  - cbn [ToString]. destruct b; cbn [bind];
      match goal with |- context [if ?c then _ else _] => destruct c end; eauto.
  - cbn [ToString bind].
    match goal with |- context [if ?c then _ else _] => destruct c end; eauto.
  - cbn [ToString bind].
    match goal with |- context [if ?c then _ else _] => destruct c end; eauto.
  - destruct (Z.of_nat (length l) >? max).
    + destruct (Array_join_scalars ", " (Array_slice0 max l)) as [p ->]; [|cbn; eauto].
      unfold Array_slice0. now apply forallb_firstn.
    + destruct (Array_join_scalars ", " l D) as [p ->]. cbn. eauto.
Qed.

(** C3, as amended.  For a record of class [char] or [string] whose value
    is a string: a non-empty value of at most 100 characters is displayed
    verbatim; a longer one as its first 97 characters followed by [...];
    an empty one as the size and the class. *)
Theorem text_description mv max s :
  Connection.class mv = "char" \/ Connection.class mv = "string" ->
  Connection.value mv = Some (JStr s) ->
  exists it,
    item_of max mv = Normal it /\
    (Connection.name mv <> "" -> description it = Some (getDescription it)) /\
    (s <> "" -> (String.length s <= 100)%nat -> getDescription it = s) /\
    ((100 < String.length s)%nat ->
       getDescription it = substring0 97 s ++ "..." /\
       String.length (substring0 97 s) = 97%nat /\
       exists rest, s = substring0 97 s ++ rest) /\
    (s = "" ->
       getDescription it = Connection.size mv ++ " " ++ Connection.class mv).
Proof.
  intros C V. pose proof (formatValue_string mv max s V) as F.
  eexists. split; [exact (item_of_formatted _ _ _ F)|].
  split; [apply item_for_description|].
  rewrite getDescription_item_for.
  assert (T : String.eqb (Connection.class mv) "char"
              || String.eqb (Connection.class mv) "string" = true).
  { destruct C as [-> | ->]; reflexivity. }
  rewrite T. split; [|split].
  - intros N L. apply Nat.ltb_ge in L. rewrite L.
    apply is_empty_false in N. now rewrite N.
  - intros L. destruct (substring0_prefix 97 s) as (rest & E & Len); [lia|].
    apply Nat.ltb_lt in L. rewrite L. split; [|split; eauto].
    destruct (substring0 97 s); [discriminate | reflexivity].
  - intros ->. reflexivity.
Qed.

Lemma sized_pattern n m :
  size_pattern_at ("[" ++ decimal n ++ " " ++ decimal m ++ "]") (decimal n) (decimal m).
Proof.
  exists " ", "". repeat split; try apply decimal_run; try apply space_run.
Qed.

(** The example snapshot of the specification, once parsed. *)
Lemma example_children fs this setting path :
  workspaceFile this = Some path ->
  fs path = Content example_snapshot ->
  JSON_parse example_snapshot = Some example_data ->
  exists x, getChildren fs this setting None = Normal [x] /\
            label x = "x" /\ description x = Some "5".
Proof.
  intros W F P. unfold getChildren.
  rewrite (getWorkspaceVariables_array fs this path _ _ [example_record] W F P eq_refl).
  eexists. split; [reflexivity|]. split; reflexivity.
Qed.

(** C4, as amended.  For a record whose display value is not empty and
    whose size is [[N M]], with [N] and [M] below 2^53: a 1-by-1 record
    that is neither a structure nor a cell shows its display value; a record
    with [N > 1] and [M > 1] that is not text shows [NxM class].  The example
    snapshot yields one entry, labelled [x] and described as [5]. *)
Theorem sized_description mv max dv n m :
  formatValue mv max = Normal dv -> dv <> "" ->
  Connection.size mv = "[" ++ decimal n ++ " " ++ decimal m ++ "]" ->
  (n < 2 ^ 53)%N -> (m < 2 ^ 53)%N ->
  exists it,
    item_of max mv = Normal it /\
    (Connection.name mv <> "" -> description it = Some (getDescription it)) /\
    (n = 1%N -> m = 1%N ->
     Connection.class mv <> "struct" -> Connection.class mv <> "cell" ->
     getDescription it = dv) /\
    ((1 < n)%N -> (1 < m)%N ->
     Connection.class mv <> "char" -> Connection.class mv <> "string" ->
     getDescription it =
     decimal n ++ "x" ++ decimal m ++ " " ++ Connection.class mv) /\
    (JSON_parse example_snapshot = Some example_data ->
     forall setting, exists x,
       getChildren (disk example_snapshot) connection setting None = Normal [x] /\
       label x = "x" /\ description x = Some "5").
Proof.
  intros F D S _ _.
  eexists. split; [exact (item_of_formatted _ _ _ F)|].
  split; [apply item_for_description|].
  pose proof (getDescription_item_for mv dv) as G. cbn zeta in G.
  apply is_empty_false in D. unfold truthy_string in G. rewrite D in G.
  rewrite S in G.
  rewrite (match_at_start _ _ _ (sized_pattern n m)), !parseInt_decimal in G.
  change (is_empty ("[" ++ decimal n ++ " " ++ decimal m ++ "]")) with false in G.
  cbn [negb andb] in G.
  repeat split.
  - intros -> -> NS NC. rewrite G.
    rewrite (eqb_neq_false _ _ NS), (eqb_neq_false _ _ NC).
    now destruct (_ || _).
  - intros Hn Hm NC NS. rewrite G.
    rewrite (eqb_neq_false _ _ NC), (eqb_neq_false _ _ NS). cbn [orb].
    replace (n =? 1)%N with false by (symmetry; apply N.eqb_neq; lia).
    reflexivity.
  - intros P setting. now apply (example_children _ _ setting snapshot_path).
Qed.

(** C10.  For a record that is not text and in whose size the pattern
    [[N M]] does not occur, the description is the display value, or the
    size and the class when there is nothing to display; no [NxM class]
    summary is made.  The size [[2 3 4]] is such a size. *)
Theorem unmatched_size_description mv max dv :
  Connection.class mv <> "char" -> Connection.class mv <> "string" ->
  ~ size_pattern_occurs (Connection.size mv) ->
  formatValue mv max = Normal dv ->
  exists it,
    item_of max mv = Normal it /\
    (Connection.name mv <> "" -> description it = Some (getDescription it)) /\
    getDescription it =
      (if is_empty dv then Connection.size mv ++ " " ++ Connection.class mv else dv) /\
    (Connection.value mv = None ->
     getDescription it = Connection.size mv ++ " " ++ Connection.class mv) /\
    ~ size_pattern_occurs "[2 3 4]".
Proof.
  intros NC NS O F.
  eexists. split; [exact (item_of_formatted _ _ _ F)|].
  split; [apply item_for_description|].
  assert (G : getDescription (item_for mv dv) =
              (if is_empty dv
               then Connection.size mv ++ " " ++ Connection.class mv else dv)).
  { rewrite getDescription_item_for.
    rewrite (eqb_neq_false _ _ NC), (eqb_neq_false _ _ NS). cbn [orb].
    apply match_size_None in O. rewrite O.
    now destruct (truthy_string dv && truthy_string (Connection.size mv)). }
  repeat split.
  - exact G.
  - intros V. rewrite G.
    rewrite (formatValue_absent mv max (or_introl V)) in F.
    injection F as <-. reflexivity.
  - apply match_size_None. reflexivity.
Qed.

(** C8.  For an array value and a preview length [max]: an array of more
    than [max] elements is displayed as its first [max] elements joined by
    a comma and a space, in brackets, followed by [, ...]; a shorter one as
    all its elements joined likewise, in brackets.  Joining strings is
    concatenation with the separator in between. *)
Theorem array_preview mv max l :
  Connection.value mv = Some (JArr l) -> 0 <= max ->
  (max < Z.of_nat (length l) ->
   formatValue mv max =
   let* preview := Array_join ", " (firstn (Z.to_nat max) l) in
   Normal ("[" ++ preview ++ ", ...]")) /\
  (Z.of_nat (length l) <= max ->
   formatValue mv max =
   let* all := Array_join ", " l in Normal ("[" ++ all ++ "]")) /\
  (forall ss : list string,
   Array_join ", " (map JStr ss) = Normal (String.concat ", " ss)).
Proof.
  intros V M. unfold formatValue. rewrite V. repeat split.
  - intros L. replace (Z.of_nat (length l) >? max) with true by (symmetry; lia).
    unfold Array_slice0.
    replace (max <? 0) with false by (symmetry; lia).
    now rewrite Z.min_l by lia.
  - intros L. now replace (Z.of_nat (length l) >? max) with false by (symmetry; lia).
  - intros ss. apply Array_join_strings.
Qed.

(** With a negative setting the test always succeeds and [slice] counts
    from the end: the preview drops the last elements instead. *)
Lemma negative_preview mv max l :
  Connection.value mv = Some (JArr l) -> max < 0 ->
  formatValue mv max =
  let* preview := Array_join ", " (firstn (length l - Z.to_nat (- max)) l) in
  Normal ("[" ++ preview ++ ", ...]").
Proof.
  intros V M. unfold formatValue. rewrite V.
  replace (Z.of_nat (length l) >? max) with true
    by (symmetry; apply Z.gtb_lt; lia).
  unfold Array_slice0. replace (max <? 0) with true by (symmetry; lia).
  assert (E : Z.to_nat (Z.max (Z.of_nat (length l) + max) 0)
            = (length l - Z.to_nat (- max))%nat) by lia.
  rewrite E.
  reflexivity.
Qed.

(** Mapping over the records of a well-formed array yields one item per
    record, in order. *)
Lemma map_well_formed max l records :
  well_formed l records ->
  exists items,
    mapM (fun v => match as_MatlabVariable v with
                   | Some mv => item_of max mv
                   | None => Throw Untyped
                   end) l = Normal items /\
    Forall2 (fun mv it => item_of max mv = Normal it) records items /\
    map label items = map Connection.name records.
Proof.
  intros [M D]. revert records M D.
  induction l as [|v l IH]; intros [|r records] M D; try discriminate.
  - exists []. repeat split; constructor.
  - injection M as Mv Ml. inversion D as [|? ? Dr D']; subst.
    destruct (IH records Ml D') as (items & E & F2 & L).
    destruct (formatValue_displayable r max Dr) as [dv F].
    exists (item_for r dv :: items). cbn [mapM]. rewrite Mv, E.
    rewrite (item_of_formatted _ _ _ F). repeat split.
    + constructor; [now apply item_of_formatted | exact F2].
    + cbn [map]. rewrite L. f_equal. apply (fields_of_new _ _ _ _ _ _).
Qed.

(** C1, as amended.  For a snapshot whose [variables] member is a
    non-empty array of well-formed records, [getChildren] at the root
    returns exactly one item per element, in the same order, labelled with
    the names. *)
Theorem one_item_per_variable fs this setting path content data l records :
  workspaceFile this = Some path ->
  fs path = Content content ->
  JSON_parse content = Some data ->
  get data "variables" = Normal (Some (JArr l)) ->
  well_formed l records ->
  l <> [] ->
  exists items,
    getChildren fs this setting None = Normal items /\
    length items = length l /\
    map label items = map Connection.name records /\
    Forall2 (fun mv it => item_of (maxArrayPreview setting) mv = Normal it)
      records items.
Proof.
  intros W F P G WF NE.
  destruct (map_well_formed (maxArrayPreview setting) l records WF)
    as (items & E & F2 & L).
  exists items. unfold getChildren.
  rewrite (getWorkspaceVariables_array fs this path content data l W F P G).
  destruct l as [|v l]; [congruence|].
  cbn [interpolate_length length_is_zero get_length bind Nat.eqb length].
  split; [exact E|]. split; [|split; assumption].
  destruct WF as [M _].
  apply (f_equal (@length _)) in M, L. rewrite !length_map in M, L.
  cbn [length] in *. congruence.
Qed.

(** C5.  For a snapshot whose [variables] member is an empty array,
    [getChildren] at the root returns one entry, the placeholder labelled
    [No variables in workspace], and not an empty list. *)
Theorem empty_workspace_placeholder fs this setting path content data :
  workspaceFile this = Some path ->
  fs path = Content content ->
  JSON_parse content = Some data ->
  get data "variables" = Normal (Some (JArr [])) ->
  getChildren fs this setting None = Normal [placeholder] /\
  label placeholder = "No variables in workspace" /\
  variableName placeholder = None /\
  description placeholder = None.
Proof.
  intros W F P G. unfold getChildren.
  rewrite (getWorkspaceVariables_array fs this path content data [] W F P G).
  repeat split.
Qed.

(** The same placeholder is shown when the snapshot is missing or cannot
    be parsed. *)
Lemma placeholder_without_snapshot fs this setting :
  getWorkspaceVariables fs this = Normal (JArr []) ->
  getChildren fs this setting None = Normal [placeholder].
Proof. intros E. unfold getChildren. now rewrite E. Qed.

(** An item that is passed in has no children. *)
Lemma no_children_below fs this setting element :
  getChildren fs this setting (Some element) = Normal [].
Proof. reflexivity. Qed.

End Formatting.
End ProviderFacts.

(** ** The write actions *)

Module ActionFacts.
Import Js Vscode Connection JsFacts.





End ActionFacts.

(** ** The auto-setup retry loop *)

Module ExtensionFacts.
Import Js Vscode Extension.

Lemma filter_enqueue due t q :
  length (List.filter is_retry (enqueue due t q)) =
  (length (List.filter is_retry q) + if is_retry (due, t) then 1 else 0)%nat.
Proof.
  induction q as [|[d t'] q IH]; cbn [enqueue].
  - cbn. destruct (is_retry (due, t)); reflexivity.
  - destruct (due <? d); cbn [List.filter].
    + destruct (is_retry (due, t)), (is_retry (d, t')); cbn [length]; lia.
    + destruct (is_retry (d, t')); cbn [length]; rewrite IH; lia.
Qed.

Lemma length_enqueue due t q : length (enqueue due t q) = S (length q).
Proof.
  induction q as [|[d t'] q IH]; cbn [enqueue]; [reflexivity|].
  destruct (due <? d); cbn [length]; [reflexivity | now rewrite IH].
Qed.

Lemma seq_snoc a : seq 1 (S a) = (seq 1 a ++ [S a])%list.
Proof. rewrite seq_S. reflexivity. Qed.

Lemma invariant_started : invariant started.
Proof.
  let v := eval vm_compute in started in change started with v.
  constructor; unfold retries_pending, warnings, maxAttempts; cbn;
    try lia; try reflexivity.
  - constructor.
Qed.

Ltac compute_step :=
  cbn -[Z.add Z.mul Z.of_nat Z.ltb Z.max Nat.leb Nat.eqb maxAttempts enqueue seq
        delay_of setupCommand waiting warning successful shown_notice].

(** [trySendSetup] right after a command was sent. *)
Lemma invariant_after_send s :
  setupComplete s = false ->
  (1 <= attemptCount s <= maxAttempts)%nat ->
  delays s = map delay_of (seq 1 (attemptCount s)) ->
  Forall (eq setupCommand) (sent s) ->
  retries_pending s = 0%nat ->
  (length (pending s) <= 1)%nat ->
  length (sent s) = attemptCount s ->
  warnings s = 0%nat ->
  invariant (trySendSetup s).
Proof.
  destruct s as [c a d time q ds ts ns au cl].
  unfold retries_pending, warnings. cbn [attemptCount delays sent pending notices setupComplete].
  intros -> cb dg oc R0 oq ws ww.
  unfold trySendSetup. cbn [setupComplete attemptCount orb].
  destruct (Nat.leb_spec maxAttempts a) as [Full|More].
  - cbn [dispose update_core setupComplete attemptCount negb andb].
    rewrite (proj2 (Nat.leb_le maxAttempts a)) by assumption.
    constructor; unfold retries_pending, warnings; compute_step;
      rewrite ?R0, ?List.filter_app, ?length_app, ?ww;
      cbn [List.filter is_warning warning length]; try assumption; try lia.
  - constructor; unfold retries_pending, warnings; compute_step;
      rewrite ?filter_enqueue, ?length_enqueue, ?R0, ?ww;
      cbn [is_retry snd].
    all: try assumption; try (unfold maxAttempts in *; lia).
    rewrite seq_snoc, map_app, <- dg. reflexivity.
Qed.

Lemma invariant_step s e : invariant s -> invariant (step s e).
Proof.
  intros I. destruct s as [c a d time q ds ts ns au cl].
  destruct I as [cb dg oc o1 oq wp wi].
  unfold retries_pending, warnings in *.
  cbn [attemptCount delays sent pending notices setupComplete] in *.
  destruct e.
  - (* a timer fires *)
    destruct q as [|[due t] rest];
      [constructor; unfold retries_pending, warnings; cbn; assumption|].
    cbn [List.filter is_retry snd length] in *.
    destruct t.
    + (* the retry timer *)
      assert (R0 : length (List.filter is_retry rest) = 0%nat) by (cbn in o1; lia).
      cbn [is_retry snd length] in wp. rewrite R0 in wp.
      destruct (wp eq_refl) as [ws ww]. clear wp wi.
      destruct c.
      * (* setup is complete: nothing is sent, nothing is scheduled *)
        constructor; unfold retries_pending, warnings; compute_step;
          rewrite ?R0; try assumption; try lia.
      * unfold step, fire. cbn [pending setupComplete negb].
        apply invariant_after_send;
          destruct (attemptCount _ =? 1)%nat;
          unfold retries_pending, warnings;
          cbn [send notify setupComplete attemptCount delays sent pending notices];
          rewrite ?List.filter_app, ?length_app;
          cbn [List.filter is_warning waiting length];
          try assumption; try reflexivity; try lia.
        all: apply Forall_app; split; [assumption | now constructor].
    + (* the clean-up timer *)
      constructor; unfold retries_pending, warnings; compute_step;
        cbn [is_retry snd length] in *; try assumption; try lia.
  - (* the snapshot file changes *)
    unfold step. cbn [disposed setupComplete].
    destruct d; [constructor; assumption|].
    destruct c; [constructor; assumption|]. cbn [negb].
    constructor; unfold retries_pending, warnings; compute_step;
      rewrite ?List.filter_app, ?length_app; cbn [List.filter is_warning successful length];
      try assumption; try lia.
  - (* the user disables auto-setup *)
    unfold step. destruct (shown_notice waiting _); [|constructor; assumption].
    constructor; unfold retries_pending, warnings; compute_step;
      try assumption; try lia.
  - (* the user copies the command *)
    unfold step. destruct (shown_notice warning _); constructor; assumption.
Qed.

(** Every state of a run satisfies the invariant. *)
Lemma invariant_from s events : invariant s -> invariant (fold_left step events s).
Proof.
  revert s. induction events as [|e events IH]; intros s I; [exact I|].
  cbn [fold_left]. apply IH. now apply invariant_step.
Qed.

Lemma invariant_run events : invariant (run events).
Proof. apply invariant_from, invariant_started. Qed.

(** Once setup is complete, nothing more is sent or scheduled. *)
Lemma complete_is_final s e :
  setupComplete s = true ->
  setupComplete (step s e) = true /\
  sent (step s e) = sent s /\ delays (step s e) = delays s.
Proof.
  destruct s as [c a d time q ds ts ns au cl]. cbn [setupComplete]. intros ->.
  destruct e; unfold step; cbn [pending disposed setupComplete negb].
  - destruct q as [|[due [|]] rest]; repeat split.
  - destruct d; repeat split.
  - destruct (shown_notice waiting _); repeat split.
  - destruct (shown_notice warning _); repeat split.
Qed.

Lemma complete_stays s events :
  setupComplete s = true ->
  sent (fold_left step events s) = sent s /\
  delays (fold_left step events s) = delays s.
Proof.
  revert s. induction events as [|e events IH]; intros s C; [now split|].
  cbn [fold_left]. destruct (complete_is_final s e C) as (C' & S' & D').
  destruct (IH _ C') as [-> ->]. now split.
Qed.

(** Without a pending retry timer, nothing more is sent or scheduled. *)
Lemma idle_is_final s e :
  retries_pending s = 0%nat ->
  retries_pending (step s e) = 0%nat /\
  sent (step s e) = sent s /\ delays (step s e) = delays s.
Proof.
  destruct s as [c a d time q ds ts ns au cl].
  unfold retries_pending. cbn [pending]. intros R.
  destruct e; unfold step; cbn [pending disposed setupComplete].
  - destruct q as [|[due [|]] rest]; [now repeat split | discriminate |].
    cbn in R. repeat split. exact R.
  - destruct d; [now repeat split|]. destruct c; now repeat split.
  - destruct (shown_notice waiting _); now repeat split.
  - destruct (shown_notice warning _); now repeat split.
Qed.

Lemma idle_stays s events :
  retries_pending s = 0%nat ->
  sent (fold_left step events s) = sent s /\
  delays (fold_left step events s) = delays s.
Proof.
  revert s. induction events as [|e events IH]; intros s R; [now split|].
  cbn [fold_left]. destruct (idle_is_final s e R) as (R' & S' & D').
  destruct (IH _ R') as [-> ->]. now split.
Qed.

(** Every timer that fires uses up one unit of [remaining]. *)
Lemma remaining_after_send s :
  setupComplete s = false ->
  retries_pending s = 0%nat ->
  (remaining (trySendSetup s)
   <= length (pending s) + (maxAttempts - attemptCount s))%nat.
Proof.
  destruct s as [c a d time q ds ts ns au cl].
  unfold retries_pending, remaining. cbn [pending setupComplete attemptCount].
  intros -> R0. unfold trySendSetup. cbn [setupComplete attemptCount orb].
  destruct (Nat.leb_spec maxAttempts a) as [Full|More].
  - cbn [dispose update_core setupComplete attemptCount negb andb].
    rewrite (proj2 (Nat.leb_le maxAttempts a)) by assumption.
    unfold retries_pending. compute_step. rewrite R0. lia.
  - unfold retries_pending. compute_step.
    rewrite filter_enqueue, length_enqueue, R0. cbn [is_retry snd Nat.add].
    unfold maxAttempts in *. lia.
Qed.

Lemma remaining_timer s :
  invariant s -> (remaining (step s TimerDue) <= remaining s - 1)%nat.
Proof.
  intros I. destruct s as [c a d time q ds ts ns au cl].
  destruct I as [cb dg oc o1 oq wp wi].
  unfold retries_pending, warnings in *.
  cbn [attemptCount delays sent pending notices setupComplete] in *.
  destruct q as [|[due t] rest]; [cbn; lia|].
  cbn [List.filter is_retry snd length] in *.
  destruct t.
  - assert (R0 : length (List.filter is_retry rest) = 0%nat) by (cbn in o1; lia).
    destruct c.
    + unfold remaining, retries_pending. compute_step. rewrite R0. lia.
    + unfold step, fire. cbn [pending setupComplete negb].
      etransitivity; [apply remaining_after_send|].
      * now destruct (attemptCount _ =? 1)%nat.
      * destruct (attemptCount _ =? 1)%nat; exact R0.
      * unfold remaining, retries_pending.
        destruct (attemptCount _ =? 1)%nat; compute_step; unfold maxAttempts in *; lia.
  - unfold remaining, retries_pending. compute_step.
    destruct (length (List.filter is_retry rest)); lia.
Qed.

Lemma remaining_timers s n :
  invariant s ->
  (remaining (fold_left step (repeat TimerDue n) s) <= remaining s - n)%nat.
Proof.
  revert s. induction n as [|n IH]; intros s I; cbn [repeat fold_left]; [lia|].
  pose proof (remaining_timer s I).
  pose proof (IH _ (invariant_step s TimerDue I)). lia.
Qed.

Lemma remaining_bound s :
  invariant s -> (remaining s <= S maxAttempts)%nat.
Proof.
  intros [cb dg oc o1 oq wp wi]. unfold remaining.
  destruct (retries_pending s) as [|[|n]]; unfold maxAttempts in *; lia.
Qed.

Lemma nothing_remaining s : remaining s = 0%nat -> retries_pending s = 0%nat.
Proof.
  unfold remaining, retries_pending. intros R.
  destruct (pending s); [reflexivity | cbn in R; lia].
Qed.

(** C9, as amended.  In every run of the auto-setup, the setup command is
    the only text sent and is sent at most 10 times; the delay before the
    [k]-th attempt is 2 seconds plus [k] seconds, so the delays grow from
    3 s to 12 s; nothing more is sent once setup is complete or the retry
    timer is gone; when the attempts are exhausted without success, all 10
    were made and one warning is shown; and 11 timer firings end the loop
    from any state of the run. *)
Theorem bounded_setup_retries (events : list event) :
  let s := run events in
  (length (sent s) <= maxAttempts)%nat /\
  Forall (eq setupCommand) (sent s) /\
  (attemptCount s <= maxAttempts)%nat /\
  delays s = map (fun k => 2000 + Z.of_nat k * 1000) (seq 1 (attemptCount s)) /\
  (warnings s <= 1)%nat /\
  (setupComplete s = true ->
   forall more, sent (fold_left step more s) = sent s) /\
  (retries_pending s = 0%nat ->
   forall more, sent (fold_left step more s) = sent s) /\
  (retries_pending s = 0%nat -> setupComplete s = false ->
   length (sent s) = maxAttempts /\ warnings s = 1%nat) /\
  retries_pending (fold_left step (repeat TimerDue (S maxAttempts)) s) = 0%nat.
Proof.
  intros s. pose proof (invariant_run events) as I. fold s in I.
  pose proof I as [cb dg oc o1 oq wp wi].
  assert (Cases : retries_pending s = 0%nat \/ retries_pending s = 1%nat) by lia.
  repeat split.
  - destruct Cases as [R|R]; [destruct (wi R) | destruct (wp R)]; lia.
  - exact oc.
  - lia.
  - exact dg.
  - destruct Cases as [R|R]; [destruct (wi R) as (_ & ? & _) | destruct (wp R)]; lia.
  - intros C more. now apply complete_stays.
  - intros R more. now apply idle_stays.
  - now apply wi.
  - now apply wi.
  - apply nothing_remaining.
    pose proof (remaining_timers s (S maxAttempts) I).
    pose proof (remaining_bound s I). lia.
Qed.

(** The delays actually grow: the first two differ. *)
Lemma first_delays : delays (run [TimerDue]) = [3000; 4000].
Proof. reflexivity. Qed.

(** An unanswered run: ten commands at 3 s, 7 s, ..., 75 s, then the
    warning. *)
Lemma unanswered_run :
  let s := run (repeat TimerDue 11) in
  sent s = repeat setupCommand 10 /\
  delays s = [3000; 4000; 5000; 6000; 7000; 8000; 9000; 10000; 11000; 12000] /\
  now s = 75000 /\
  warnings s = 1%nat /\ pending s = [] /\ setupComplete s = false.
Proof. repeat split. Qed.

End ExtensionFacts.

(** ** The producer script *)

Module ProducerFacts.
Import Js Producer JsFacts ProviderFacts.

Lemma char_row_short s :
  (String.length s <= 100)%nat -> exported_value (Some (CharRow s)) = s.
Proof.
  intros L. unfold exported_value, text_value. cbn [text_length char].
  now rewrite (proj2 (Nat.leb_le _ _) L).
Qed.

Lemma char_row_long s :
  (100 < String.length s)%nat ->
  exported_value (Some (CharRow s)) = substring0 100 s ++ "...".
Proof.
  intros L. unfold exported_value, text_value, first_100. cbn [text_length].
  rewrite (proj2 (Nat.leb_gt _ _) L).
  rewrite (proj2 (Nat.leb_le 100 (String.length s))) by lia.
  reflexivity.
Qed.

(** C6, as amended.  For a numeric or logical value of at most 10
    elements the exported [value] is what [mat2str] prints when the value
    has at most two dimensions, and [<error reading value>] when it has
    more, where [mat2str] raises an error; for more than 10 elements it is
    the summary [<class> [<n> elements]].  For a character row vector it is
    the text itself when that has at most 100 characters, and otherwise its
    first 100 characters followed by [...], 103 characters in all.  The
    script written by [createMatlabHelperScript] does the same. *)
Theorem exported_value_shape :
  (forall a, (numel (num_dims a) <= 10)%nat -> (length (num_dims a) <= 2)%nat ->
     exported_value (Some (Num a)) = num_mat2str a) /\
  (forall a, (numel (num_dims a) <= 10)%nat -> (2 < length (num_dims a))%nat ->
     exported_value (Some (Num a)) = error_reading) /\
  (forall a, (10 < numel (num_dims a))%nat ->
     exported_value (Some (Num a)) =
     num_class a ++ " [" ++ decimal (N.of_nat (numel (num_dims a))) ++ " elements]") /\
  (forall s, (String.length s <= 100)%nat ->
     exported_value (Some (CharRow s)) = s) /\
  (forall s, (100 < String.length s)%nat ->
     exported_value (Some (CharRow s)) = substring0 100 s ++ "..." /\
     String.length (exported_value (Some (CharRow s))) = 103%nat /\
     exists rest, s = substring0 100 s ++ rest) /\
  (forall a, helper_exported_value (Some (Num a)) = exported_value (Some (Num a))) /\
  (forall s, helper_exported_value (Some (CharRow s)) = exported_value (Some (CharRow s))).
Proof.
  split; [|split; [|split; [|split; [|split; [|split]]]]].
  - intros a L D. unfold exported_value, numeric_value, mat2str.
    now rewrite (proj2 (Nat.leb_le _ _) L), (proj2 (Nat.leb_le _ _) D).
  - intros a L D. unfold exported_value, numeric_value, mat2str.
    now rewrite (proj2 (Nat.leb_le _ _) L), (proj2 (Nat.leb_gt _ _) D).
  - intros a L. unfold exported_value, numeric_value.
    now rewrite (proj2 (Nat.leb_gt _ _) L).
  - apply char_row_short.
  - intros s L. rewrite (char_row_long s L).
    destruct (substring0_prefix 100 s) as (rest & E & Len); [lia|].
    split; [reflexivity|]. split; [|eauto].
    rewrite length_append, Len. reflexivity.
  - reflexivity.
  - reflexivity.
Qed.

(** A string scalar has length one as an array, whatever its text: it is
    exported whole. *)
Lemma string_scalar_whole s : exported_value (Some (StringScalar s)) = s.
Proof. reflexivity. Qed.

(** The size that the producer writes for a matrix is one that the
    consumer's pattern matches. *)
Lemma exported_size_matches w val r c :
  var_size w = [r; c] ->
  match_size (Producer.size (export_variable w val))
  = Some (decimal (N.of_nat r), decimal (N.of_nat c)).
Proof.
  intros S. unfold export_variable, mat2str_size. cbn [Producer.size].
  rewrite S. cbn [map strjoin].
  change ("[" ++ (decimal (N.of_nat r) ++ " " ++ decimal (N.of_nat c)) ++ "]")
    with (String "[" ((decimal (N.of_nat r) ++ " " ++ decimal (N.of_nat c)) ++ "]")).
  rewrite append_assoc.
  apply match_at_start, (sized_pattern (N.of_nat r) (N.of_nat c)).
Qed.

End ProducerFacts.

(** ** The program on the sample inputs *)

Module Examples.
Import Js Vscode Connection Provider Snapshots Reference.
Import JsFacts ConnectionFacts ProviderFacts ActionFacts ExtensionFacts ProducerFacts.

(** The reference parser reads the sample snapshots as intended. *)
Lemma parse_samples :
  parse example_snapshot = Some example_data /\
  parse empty_snapshot = Some empty_data /\
  parse empty_text_snapshot
  = Some (JObj [("variables", JArr [record "e" "[0 0]" "char" (JStr "")])]) /\
  parse char_matrix_snapshot
  = Some (JObj [("variables",
                 JArr [record "c" "[2 3]" "char" (JArr [JStr "abc"; JStr "def"])])]) /\
  parse "oops" = None.
Proof. repeat split. Qed.

(** C1: a snapshot with an empty [variables] array has zero elements, and
    [getChildren] returns one item. *)
Lemma empty_array_one_item :
  JSON_parse empty_snapshot = Some (JObj [("variables", JArr [])]) /\
  exists items,
    getChildren (disk empty_snapshot) connection None None = Normal items /\
    length items = 1%nat /\
    length items <> length (@nil json).
Proof.
  split; [reflexivity|]. exists [placeholder]. repeat split. discriminate.
Qed.

Lemma one_item_per_variable_witness :
  exists items,
    getChildren (disk example_snapshot) connection None None = Normal items /\
    length items = 1%nat /\ map label items = ["x"].
Proof.
  destruct (one_item_per_variable (disk example_snapshot) connection None
              snapshot_path example_snapshot example_data [example_record]
              [variable "x" "[1 1]" "double" (Some (JStr "5"))])
    as (items & E & L & N & _).
  - reflexivity.
  - reflexivity.
  - reflexivity.
  - reflexivity.
  - split; [reflexivity|]. repeat constructor.
  - discriminate.
  - exists items. repeat split; assumption.
Defined.

(** C2 *)
Lemma missing_or_unparsable_snapshot_witness :
  JSON_parse "oops" = None /\
  getWorkspaceVariables (disk "oops") connection = Normal (JArr []) /\
  getWorkspaceVariables (fun _ => Absent) connection = Normal (JArr []).
Proof.
  split; [reflexivity|]. split.
  - apply (missing_or_unparsable_snapshot (disk "oops") connection).
    intros path E. injection E as <-. right. exists "oops". split; reflexivity.
  - apply (missing_or_unparsable_snapshot (fun _ => Absent) connection).
    intros path _. left. reflexivity.
Defined.

(** C3: an empty text has at most 100 characters, and is not displayed
    verbatim. *)
Lemma empty_text_not_verbatim :
  (String.length "" <= 100)%nat /\
  exists it,
    getChildren (disk empty_text_snapshot) connection None None = Normal [it] /\
    type it = Some "char" /\
    description it = Some "[0 0] char" /\
    description it <> Some "".
Proof.
  split; [cbn; lia|]. eexists. split; [reflexivity|].
  repeat split. discriminate.
Qed.

Lemma text_description_witness :
  exists it,
    item_of 5 (variable "s" "[1 5]" "char" (Some (JStr "hello"))) = Normal it /\
    description it = Some "hello".
Proof.
  destruct (text_description (variable "s" "[1 5]" "char" (Some (JStr "hello")))
              5 "hello") as (it & E & D & Short & _).
  - left. reflexivity.
  - reflexivity.
  - exists it. split; [exact E|]. rewrite D by discriminate.
    rewrite Short; [reflexivity | discriminate | cbn; lia].
Defined.

(** C4: a 2-by-3 character matrix with a defined value is displayed by its
    value, not as [2x3 char]. *)
Lemma char_matrix_not_summarised :
  exists it,
    getChildren (disk char_matrix_snapshot) connection None None = Normal [it] /\
    size it = Some "[2 3]" /\
    value it = Some "[abc, def]" /\
    description it = Some "[abc, def]" /\
    description it <> Some "2x3 char".
Proof. eexists. split; [reflexivity|]. repeat split. discriminate. Qed.

Lemma sized_description_witness :
  (exists it,
     item_of 5 (variable "x" "[1 1]" "double" (Some (JStr "5"))) = Normal it /\
     description it = Some "5") /\
  (exists it,
     item_of 5 (variable "k" "[3 4]" "double"
                  (Some (JArr (map (@JNum integers) [1; 2; 3; 4; 5; 6; 7])))) = Normal it /\
     description it = Some "3x4 double") /\
  (exists x,
     getChildren (disk example_snapshot) connection None None = Normal [x] /\
     label x = "x" /\ description x = Some "5").
Proof.
  split; [|split].
  - destruct (sized_description (variable "x" "[1 1]" "double" (Some (JStr "5")))
                5 "5" 1%N 1%N) as (it & E & D & One & _).
    + reflexivity.
    + discriminate.
    + reflexivity.
    + reflexivity.
    + reflexivity.
    + exists it. split; [exact E|]. rewrite D by discriminate.
      rewrite One; [reflexivity | reflexivity | reflexivity | discriminate | discriminate].
  - destruct (sized_description
                (variable "k" "[3 4]" "double"
                   (Some (JArr (map (@JNum integers) [1; 2; 3; 4; 5; 6; 7]))))
                5 "[1, 2, 3, 4, 5, ...]" 3%N 4%N) as (it & E & D & _ & Many & _).
    + reflexivity.
    + discriminate.
    + reflexivity.
    + reflexivity.
    + reflexivity.
    + exists it. split; [exact E|]. rewrite D by discriminate.
      rewrite Many; [reflexivity | reflexivity | reflexivity | discriminate | discriminate].
  - destruct (sized_description (variable "x" "[1 1]" "double" (Some (JStr "5")))
                5 "5" 1%N 1%N) as (_ & _ & _ & _ & _ & Example).
    + reflexivity.
    + discriminate.
    + reflexivity.
    + reflexivity.
    + reflexivity.
    + apply (Example eq_refl None).
Defined.

(** C5 *)
Lemma empty_workspace_placeholder_witness :
  getChildren (disk empty_snapshot) connection None None = Normal [placeholder].
Proof.
  apply (empty_workspace_placeholder (disk empty_snapshot) connection None
           snapshot_path empty_snapshot empty_data); reflexivity.
Defined.

(** C6: a text of 101 characters is exported with 103 characters. *)
Lemma long_text_exceeds_limit :
  String.length long_text = 101%nat /\
  String.length (Producer.exported_value (Some (Producer.CharRow long_text)))
  = 103%nat /\
  ~ (String.length (Producer.exported_value (Some (Producer.CharRow long_text)))
     <= 100)%nat.
Proof. split; [reflexivity|]. split; [reflexivity|]. cbn. lia. Qed.

(** C6: an array of 2-by-2-by-2 has 8 elements, and is not exported as
    what [mat2str] prints. *)
Lemma small_cube_not_printed :
  Producer.numel (Producer.num_dims small_cube) = 8%nat /\
  Producer.exported_value (Some (Producer.Num small_cube)) = "<error reading value>" /\
  Producer.helper_exported_value (Some (Producer.Num small_cube))
  = "<error reading value>".
Proof. repeat split. Qed.

Lemma exported_value_shape_witness :
  Producer.exported_value (Some (Producer.Num one_to_five)) = "[1 2 3 4 5]" /\
  Producer.exported_value (Some (Producer.Num small_cube)) = "<error reading value>" /\
  Producer.exported_value (Some (Producer.Num twelve)) = "double [12 elements]" /\
  Producer.exported_value (Some (Producer.CharRow "hello")) = "hello" /\
  Producer.exported_value (Some (Producer.CharRow long_text))
  = replicate 100 "a" ++ "...".
Proof.
  destruct exported_value_shape as (Few & Cube & Many & Short & Long & _).
  split; [|split; [|split; [|split]]].
  - rewrite (Few one_to_five); [reflexivity | cbn; lia | cbn; lia].
  - rewrite (Cube small_cube); [reflexivity | cbn; lia | cbn; lia].
  - rewrite (Many twelve); [reflexivity | cbn; lia].
  - apply (Short "hello"). cbn. lia.
  - destruct (Long long_text) as (E & _); [cbn; lia|]. rewrite E. reflexivity.
Defined.



(** C8 *)
Lemma array_preview_witness :
  formatValue (variable "k" "[3 4]" "double"
                 (Some (JArr (map (@JNum integers) [1; 2; 3; 4; 5; 6; 7])))) 5
  = Normal "[1, 2, 3, 4, 5, ...]" /\
  formatValue (variable "c" "[2 3]" "char" (Some (JArr [JStr "abc"; JStr "def"]))) 5
  = Normal "[abc, def]".
Proof.
  split.
  - destruct (array_preview
                (variable "k" "[3 4]" "double"
                   (Some (JArr (map (@JNum integers) [1; 2; 3; 4; 5; 6; 7]))))
                5 (map (@JNum integers) [1; 2; 3; 4; 5; 6; 7])) as (More & _).
    + reflexivity.
    + lia.
    + rewrite More; [reflexivity | cbn; lia].
  - destruct (array_preview
                (variable "c" "[2 3]" "char" (Some (JArr [JStr "abc"; JStr "def"])))
                5 [JStr "abc"; JStr "def"]) as (_ & All & _).
    + reflexivity.
    + lia.
    + rewrite All; [reflexivity | cbn; lia].
Defined.

(** C9: the delays of the first two attempts differ. *)
Lemma delay_is_not_fixed :
  Extension.delays (Extension.run [Extension.TimerDue]) = [3000; 4000] /\
  exists d1 d2,
    In d1 (Extension.delays (Extension.run [Extension.TimerDue])) /\
    In d2 (Extension.delays (Extension.run [Extension.TimerDue])) /\
    d1 <> d2.
Proof.
  split; [reflexivity|]. exists 3000, 4000.
  split; [left; reflexivity|]. split; [right; left; reflexivity | discriminate].
Qed.

Lemma bounded_setup_retries_witness :
  let s := Extension.run (repeat Extension.TimerDue 11) in
  length (Extension.sent s) = 10%nat /\ Extension.warnings s = 1%nat /\
  forall more, Extension.sent (fold_left Extension.step more s) = Extension.sent s.
Proof.
  intros s.
  assert (R : Extension.retries_pending s = 0%nat) by (vm_compute; reflexivity).
  assert (C : Extension.setupComplete s = false) by (vm_compute; reflexivity).
  destruct (bounded_setup_retries (repeat Extension.TimerDue 11))
    as (_ & _ & _ & _ & _ & _ & Idle & Exhausted & _).
  destruct (Exhausted R C) as [Ten One].
  split; [exact Ten|]. split; [exact One|]. exact (Idle R).
Defined.

(** C10 *)
Lemma unmatched_size_description_witness :
  exists it,
    item_of 5 (variable "m" "[2 3 4]" "double" (Some (JStr "double [24 elements]")))
    = Normal it /\
    description it = Some "double [24 elements]".
Proof.
  destruct (unmatched_size_description
              (variable "m" "[2 3 4]" "double" (Some (JStr "double [24 elements]")))
              5 "double [24 elements]") as (it & E & D & G & _).
  - discriminate.
  - discriminate.
  - apply match_size_None. reflexivity.
  - reflexivity.
  - exists it. split; [exact E|]. rewrite D by discriminate. now rewrite G.
Defined.

End Examples.

(** ** Reading the snapshot and building the tree *)

Module ReadingFacts.
Import Js Connection Provider JsFacts ConnectionFacts ProviderFacts.

Section Reading.
Context `{NumberOps} `{!JsonParser}.

(** X1.  [getWorkspaceVariables] never throws, what it returns is truthy,
    and it is either the empty list or the very [variables] member of what
    the snapshot file parses to. *)
Theorem reading_returns_file_content fs this :
  exists v,
    getWorkspaceVariables fs this = Normal v /\
    truthy v = true /\
    (v = JArr [] \/
     exists path content data,
       workspaceFile this = Some path /\
       fs path = Content content /\
       JSON_parse content = Some data /\
       get data "variables" = Normal (Some v)).
Proof.
  assert (Empty : truthy (JArr []) = true /\
                  (JArr [] = JArr [] \/
                   exists path content data,
                     workspaceFile this = Some path /\
                     fs path = Content content /\
                     JSON_parse content = Some data /\
                     get data "variables" = Normal (Some (JArr []))))
    by (split; [reflexivity | now left]).
  unfold getWorkspaceVariables.
  destruct (workspaceFile this) as [path|] eqn:W; [|exists (JArr []); auto].
  destruct (fs path) as [| |content] eqn:F;
    try (exists (JArr []); split; [reflexivity | exact Empty]).
  destruct (JSON_parse content) as [data|] eqn:P;
    [|exists (JArr []); split; [reflexivity | exact Empty]].
  cbn [bind]. unfold variables_or_empty.
  destruct (get data "variables") as [[v|]|e] eqn:G; cbn [bind try_catch];
    try (exists (JArr []); split; [reflexivity | exact Empty]).
  destruct (truthy v) eqn:T;
    [|exists (JArr []); split; [reflexivity | exact Empty]].
  destruct (interpolate_length v); cbn [bind try_catch];
    [|exists (JArr []); split; [reflexivity | exact Empty]].
  exists v. split; [reflexivity|]. split; [exact T|].
  right. exists path, content, data. auto.
Qed.


(** X2.  The display string of a value that is not an array never has
    more than 100 characters. *)
Theorem display_is_bounded mv max dv :
  (forall l, Connection.value mv <> Some (JArr l)) ->
  formatValue mv max = Normal dv ->
  (String.length dv <= 100)%nat.
Proof.
  intros NotArray. unfold formatValue.
  destruct (Connection.value mv) as [v|]; [|intros E; injection E as <-; cbn; lia].
  assert (Scalar : forall s, ToString v = Normal s ->
            (if (100 <? String.length s)%nat
             then Normal (substring0 97 s ++ "...") else Normal s) = Normal dv ->
            (String.length dv <= 100)%nat).
  { intros s _ E. destruct (Nat.ltb_spec 100 (String.length s)) as [L|L];
      injection E as <-; [|exact L].
    destruct (substring0_prefix 97 s) as (rest & _ & Len); [lia|].
    rewrite length_append, Len. cbn. lia. }
  destruct v as [ | b | n | s | l | m ].
  - intros E; injection E as <-; cbn; lia.
  - destruct (ToString (JBool b)) eqn:T; cbn [bind]; [now apply Scalar | discriminate].
  - destruct (ToString (JNum n)) eqn:T; cbn [bind]; [now apply Scalar | discriminate].
  - destruct (ToString (JStr s)) eqn:T; cbn [bind]; [now apply Scalar | discriminate].
  - now destruct (NotArray l).
  - destruct (ToString (JObj m)) eqn:T; cbn [bind]; [now apply Scalar | discriminate].
Qed.

(** X3.  For a record that is not text, with a display value and the size
    [[N M]] (both below 2^53), the description is the display value exactly
    when [N = M = 1] and the class is neither [struct] nor [cell]; in every
    other case (vectors, empty arrays, structures and cells) it is the
    summary [NxM class]. *)
Theorem sized_description_cases mv max dv n m :
  formatValue mv max = Normal dv -> dv <> "" ->
  Connection.size mv = "[" ++ decimal n ++ " " ++ decimal m ++ "]" ->
  Connection.class mv <> "char" -> Connection.class mv <> "string" ->
  (n < 2 ^ 53)%N -> (m < 2 ^ 53)%N ->
  exists it,
    item_of max mv = Normal it /\
    (n = 1%N /\ m = 1%N /\
     Connection.class mv <> "struct" /\ Connection.class mv <> "cell" ->
     getDescription it = dv) /\
    (n <> 1%N \/ m <> 1%N \/
     Connection.class mv = "struct" \/ Connection.class mv = "cell" ->
     getDescription it =
     decimal n ++ "x" ++ decimal m ++ " " ++ Connection.class mv).
Proof.
  intros F D S NC NS _ _.
  exists (item_for mv dv). split; [exact (item_of_formatted _ _ _ F)|].
  pose proof (getDescription_item_for mv dv) as G. cbn zeta in G.
  apply is_empty_false in D. unfold truthy_string in G. rewrite D in G.
  rewrite S in G.
  rewrite (match_at_start _ _ _ (sized_pattern n m)), !parseInt_decimal in G.
  change (is_empty ("[" ++ decimal n ++ " " ++ decimal m ++ "]")) with false in G.
  rewrite (eqb_neq_false _ _ NC), (eqb_neq_false _ _ NS) in G.
  cbn [negb andb orb] in G. rewrite G. split.
  - intros (-> & -> & Ns & Nc).
    now rewrite (eqb_neq_false _ _ Ns), (eqb_neq_false _ _ Nc).
  - intros [Hn | [Hm | [Hs | Hc]]].
    + now rewrite (proj2 (N.eqb_neq n 1) Hn).
    + rewrite (proj2 (N.eqb_neq m 1) Hm). now rewrite andb_false_r.
    + rewrite Hs. cbn [String.eqb Ascii.eqb Bool.eqb negb andb].
      now rewrite andb_false_r.
    + rewrite Hc. cbn [String.eqb Ascii.eqb Bool.eqb negb andb].
      now rewrite andb_false_r.
Qed.

Lemma mapM_length {A B} (f : A -> completion B) l ys :
  mapM f l = Normal ys -> length ys = length l.
Proof.
  revert ys. induction l as [|x l IH]; intros ys; cbn [mapM].
  - intros E. now injection E as <-.
  - destruct (f x); cbn [bind]; [|discriminate].
    destruct (mapM f l); cbn [bind]; [|discriminate].
    intros E. injection E as <-. cbn. f_equal. now apply IH.
Qed.

(** X4.  At the root, [getChildren] never resolves to an empty list: it
    shows the placeholder, or one item for each element of a non-empty
    [variables] array. *)
Theorem children_never_empty fs this setting items :
  getChildren fs this setting None = Normal items ->
  items <> [] /\
  (items = [placeholder] \/
   exists l, getWorkspaceVariables fs this = Normal (JArr l) /\
             l <> [] /\ length items = length l).
Proof.
  unfold getChildren.
  destruct (getWorkspaceVariables fs this) as [v|]; cbn [bind]; [|discriminate].
  destruct (interpolate_length v); cbn [bind]; [|discriminate].
  destruct (length_is_zero v) as [[|]|] eqn:Z; cbn [bind]; try discriminate.
  - intros E. injection E as <-. split; [discriminate | now left].
  - destruct v as [ | | | | l | ]; try discriminate.
    intros M. apply mapM_length in M.
    assert (l <> []) by (intros ->; discriminate).
    split.
    + intros ->. destruct l; [congruence | discriminate].
    + right. exists l. auto.
Qed.

(** X5.  Without a readable, parsable snapshot, [getChildren] at the root
    resolves to the placeholder alone: nothing is thrown. *)
Theorem no_snapshot_placeholder fs this setting :
  (forall path, workspaceFile this = Some path ->
     fs path = Absent \/ fs path = Unreadable \/
     exists content, fs path = Content content /\ JSON_parse content = None) ->
  getChildren fs this setting None = Normal [placeholder].
Proof.
  intros M. apply placeholder_without_snapshot.
  unfold getWorkspaceVariables.
  destruct (workspaceFile this) as [path|]; [|reflexivity].
  destruct (M path eq_refl) as [A | [U | (content & C & P)]].
  - now rewrite A.
  - now rewrite U.
  - now rewrite C, P.
Qed.

(** X6.  When the [variables] member is truthy but not an array, and has
    no [length] member of its own (a number, [true], a non-empty string, a
    single record object), [getChildren] at the root is rejected with a
    [TypeError]. *)
Theorem single_object_is_rejected fs this setting path content data v :
  workspaceFile this = Some path ->
  fs path = Content content ->
  JSON_parse content = Some data ->
  get data "variables" = Normal (Some v) ->
  truthy v = true ->
  match v with
  | JArr _ => False
  | JObj members => own_property "length" members = None
  | _ => True
  end ->
  getChildren fs this setting None = Throw TypeError.
Proof.
  intros W F P G T Shape. unfold getChildren, getWorkspaceVariables, variables_or_empty.
  rewrite W, F, P. cbn [bind]. rewrite G. cbn [bind]. rewrite T.
  destruct v as [ | b | n | s | l | m ]; try discriminate; try contradiction.
  - reflexivity.
  - reflexivity.
  - cbn. destruct s; [discriminate | reflexivity].
  - unfold interpolate_length at 1. unfold get_length. rewrite Shape.
    cbn [bind try_catch].
    unfold interpolate_length, length_is_zero, get_length. rewrite Shape.
    reflexivity.
Qed.

End Reading.
End ReadingFacts.

(** ** Start-up: the cleared snapshot and the helper script *)

Module StartupFacts.
Import Js Connection Provider Startup JsFacts ConnectionFacts ProviderFacts.

Section Paths.
Variable join : string -> string -> string.

Lemma written_file path content d d' :
  writeFileSync path content d = Normal d' ->
  files d' path = Content content /\
  (forall p, p <> path -> files d' p = files d p) /\
  directories d' = directories d /\ refuses d' = refuses d.
Proof.
  unfold writeFileSync. destruct (refuses d path); [discriminate|].
  intros E. injection E as <-. cbn. rewrite String.eqb_refl.
  repeat split. intros p Np. now rewrite (proj2 (String.eqb_neq p path) Np).
Qed.

Lemma made_directory path d d' :
  mkdirSync path d = Normal d' ->
  files d' = files d /\ refuses d' = refuses d /\
  (forall p, directories d p = true -> directories d' p = true).
Proof.
  unfold mkdirSync. destruct (refuses d path); [discriminate|].
  intros E. injection E as <-. cbn. repeat split.
  intros p ->. apply orb_true_r.
Qed.

Lemma exists_file d path : files d path <> Absent -> existsSync d path = true.
Proof.
  unfold existsSync. destruct (files d path); [congruence | |];
    intros _; apply orb_true_r.
Qed.

Lemma helper_script_kept folders d d' :
  createMatlabHelperScript join folders d = Normal d' ->
  refuses d' = refuses d /\
  forall folder rest p, folders = folder :: rest ->
    p <> scriptPath join folder -> files d' p = files d p.
Proof.
  unfold createMatlabHelperScript. destruct folders as [|folder rest].
  - intros E. injection E as <-. split; [reflexivity | discriminate].
  - destruct (existsSync d (scriptPath join folder)).
    + intros E. injection E as <-. split; reflexivity.
    + intros Wr. destruct (written_file _ _ _ _ Wr) as (_ & Else & _ & R).
      split; [exact R|]. intros f r p E Np. injection E as <- <-. now apply Else.
Qed.

(** X7.  [createMatlabHelperScript] never rewrites a script that exists,
    changes no other file, and running it again after it succeeded changes
    nothing. *)
Theorem helper_script_written_once folders d d' :
  createMatlabHelperScript join folders d = Normal d' ->
  createMatlabHelperScript join folders d' = Normal d' /\
  (forall folder rest p, folders = folder :: rest ->
     p <> scriptPath join folder -> files d' p = files d p) /\
  (forall folder rest, folders = folder :: rest ->
     existsSync d (scriptPath join folder) = true -> d' = d) /\
  (forall folder rest, folders = folder :: rest ->
     existsSync d (scriptPath join folder) = false ->
     files d' (scriptPath join folder) = Content scriptContent).
Proof.
  unfold createMatlabHelperScript. destruct folders as [|folder rest].
  - intros E. injection E as <-. repeat split; discriminate.
  - destruct (existsSync d (scriptPath join folder)) eqn:X.
    + intros E. injection E as <-. rewrite X.
      split; [reflexivity|]. split; [reflexivity|]. split; [reflexivity|].
      intros f r E Xf. injection E as <- <-. congruence.
    + intros Wr. destruct (written_file _ _ _ _ Wr) as (Here & Else & _).
      rewrite exists_file by (rewrite Here; discriminate).
      split; [reflexivity|]. split; [|split].
      * intros f r p E Np. injection E as <- <-. now apply Else.
      * intros f r E Xt. injection E as <- <-. congruence.
      * intros f r E _. injection E as <- <-. exact Here.
Qed.

Lemma exists_not d path :
  existsSync d path = false -> files d path = Absent /\ directories d path = false.
Proof.
  unfold existsSync. destruct (directories d path); [discriminate|].
  destruct (files d path); [auto | discriminate | discriminate].
Qed.

(** The disk after [initialize], file by file. *)
Lemma initialize_files folder rest timestamp d p :
  let st := initialize join (folder :: rest) timestamp d in
  files (disk st) p = files d p \/
  (p = snapshotPath join folder /\ refuses d p = false /\
   files (disk st) p = Content (cleared timestamp)) \/
  (p = scriptPath join folder /\ files d p = Absent /\
   files (disk st) p = Content scriptContent).
Proof.
  cbn zeta. unfold initialize.
  assert (Step1 : forall d1,
            files d1 = files d -> refuses d1 = refuses d ->
            (forall q, directories d q = true -> directories d1 q = true) ->
            let d2 :=
              if existsSync d1 (snapshotPath join folder) then
                match writeFileSync (snapshotPath join folder) (cleared timestamp) d1 with
                | Normal d' => d'
                | Throw _ => d1
                end
              else d1 in
            let st := match createMatlabHelperScript join (folder :: rest) d2 with
                      | Throw _ => d2
                      | Normal d3 => d3
                      end in
              files st p = files d p \/
              (p = snapshotPath join folder /\ refuses d p = false /\
               files st p = Content (cleared timestamp)) \/
              (p = scriptPath join folder /\ files d p = Absent /\
               files st p = Content scriptContent)).
  { intros d1 Fd Rd Dd d2 st. subst st.
    assert (D2 : files d2 p = files d p \/
                 (p = snapshotPath join folder /\ refuses d p = false /\
                  files d2 p = Content (cleared timestamp))).
    { subst d2. destruct (existsSync d1 _); [|left; now rewrite Fd].
      destruct (writeFileSync _ _ d1) as [d'|] eqn:Wr; [|left; now rewrite Fd].
      destruct (written_file _ _ _ _ Wr) as (Here & Else & _).
      destruct (String.eqb_spec p (snapshotPath join folder)) as [->|Np].
      - right. split; [reflexivity|]. split; [|exact Here].
        unfold writeFileSync in Wr. rewrite <- Rd.
        destruct (refuses d1 _); [discriminate | reflexivity].
      - left. rewrite (Else p Np). now rewrite Fd. }
    unfold createMatlabHelperScript.
    destruct (existsSync d2 (scriptPath join folder)) eqn:X.
    - destruct D2 as [E | E]; [now left | right; now left].
    - destruct (writeFileSync (scriptPath join folder) scriptContent d2)
        as [d3|] eqn:Wr; [|destruct D2 as [E | E]; [now left | right; now left]].
      destruct (written_file _ _ _ _ Wr) as (Here & Else & _).
      destruct (String.eqb_spec p (scriptPath join folder)) as [->|Np].
      + apply exists_not in X as [Xa _].
        destruct D2 as [E | (_ & _ & E)]; [|congruence].
        right. right. split; [reflexivity|]. split; [congruence | exact Here].
      + rewrite (Else p Np). destruct D2 as [E | E]; [now left | right; now left]. }
  destruct (existsSync d (vscodePath join folder)).
  - specialize (Step1 d eq_refl eq_refl (fun q e => e)). cbn zeta in Step1.
    cbv beta iota zeta.
    destruct (createMatlabHelperScript join (folder :: rest) _) eqn:C;
      cbn [disk]; try rewrite C in Step1; exact Step1.
  - destruct (mkdirSync (vscodePath join folder) d) as [d1|] eqn:Mk;
      [|left; reflexivity].
    destruct (made_directory _ _ _ Mk) as (Fd & Rd & Dd).
    specialize (Step1 d1 Fd Rd Dd). cbn zeta in Step1.
    cbv beta iota zeta.
    destruct (createMatlabHelperScript join (folder :: rest) _) eqn:C;
      cbn [disk]; try rewrite C in Step1; exact Step1.
Qed.

(** X8.  With a workspace folder, [initialize] changes no file but the
    snapshot and the helper script: the snapshot is kept or replaced by the
    cleared one, and a helper script that exists is kept as it is. *)
Theorem startup_touches_two_files folder rest timestamp d :
  snapshotPath join folder <> scriptPath join folder ->
  let st := initialize join (folder :: rest) timestamp d in
  workspaceFile (connection st) = Some (snapshotPath join folder) /\
  (forall p, p <> snapshotPath join folder -> p <> scriptPath join folder ->
     files (disk st) p = files d p) /\
  (files (disk st) (snapshotPath join folder) = files d (snapshotPath join folder) \/
   files (disk st) (snapshotPath join folder) = Content (cleared timestamp)) /\
  (files d (scriptPath join folder) <> Absent ->
   files (disk st) (scriptPath join folder) = files d (scriptPath join folder)).
Proof.
  intros Distinct. cbn zeta.
  split; [|split; [|split]].
  - unfold initialize.
    destruct (if existsSync d _ then _ else _); [|reflexivity].
    cbv beta iota zeta.
    destruct (createMatlabHelperScript _ _ _); reflexivity.
  - intros p N1 N2.
    pose proof (initialize_files folder rest timestamp d p) as Fs. cbn zeta in Fs.
    destruct Fs as [E | [(E & _) | (E & _)]]; congruence.
  - pose proof (initialize_files folder rest timestamp d (snapshotPath join folder))
      as Fs. cbn zeta in Fs.
    destruct Fs as [E | [(_ & _ & E) | (E & _)]]; [now left | now right | congruence].
  - intros Ex.
    pose proof (initialize_files folder rest timestamp d (scriptPath join folder))
      as Fs. cbn zeta in Fs.
    destruct Fs as [E | [(E & _) | (_ & A & _)]]; congruence.
Qed.

Section Reading.
Context `{NumberOps} `{!JsonParser}.

(** X9.  A snapshot left by an earlier session is not shown: when the
    folder [.vscode] exists or can be made and the snapshot file can be
    written, [initialize] replaces it by the cleared snapshot, from which
    [getWorkspaceVariables] reads the empty list and [getChildren] the
    placeholder. *)
Theorem stale_snapshot_is_cleared folder rest timestamp d setting :
  snapshotPath join folder <> scriptPath join folder ->
  existsSync d (vscodePath join folder) = true \/
  refuses d (vscodePath join folder) = false ->
  files d (snapshotPath join folder) <> Absent ->
  refuses d (snapshotPath join folder) = false ->
  JSON_parse (cleared timestamp) =
    Some (JObj [("variables", JArr []); ("timestamp", JStr timestamp)]) ->
  let st := initialize join (folder :: rest) timestamp d in
  files (disk st) (snapshotPath join folder) = Content (cleared timestamp) /\
  getWorkspaceVariables (files (disk st)) (connection st) = Normal (JArr []) /\
  getChildren (files (disk st)) (connection st) setting None = Normal [placeholder].
Proof.
  intros Distinct Dir Stale Writable Parsed. cbn zeta.
  assert (Cleared : files (disk (initialize join (folder :: rest) timestamp d))
                      (snapshotPath join folder) = Content (cleared timestamp)).
  { unfold initialize.
    assert (Step : forall d1, files d1 = files d -> refuses d1 = refuses d ->
              files (disk (let d2 :=
                       if existsSync d1 (snapshotPath join folder) then
                         match writeFileSync (snapshotPath join folder)
                                 (cleared timestamp) d1 with
                         | Normal d' => d'
                         | Throw _ => d1
                         end
                       else d1 in
                     match createMatlabHelperScript join (folder :: rest) d2 with
                     | Throw _ => {| connection :=
                                       {| workspaceFile := Some (snapshotPath join folder) |};
                                     disk := d2; isInitialized := false |}
                     | Normal d3 => {| connection :=
                                         {| workspaceFile := Some (snapshotPath join folder) |};
                                       disk := d3; isInitialized := true |}
                     end)) (snapshotPath join folder) = Content (cleared timestamp)).
    { intros d1 Fd Rd. cbv beta zeta.
      rewrite exists_file by (rewrite Fd; exact Stale).
      unfold writeFileSync at 1 2. rewrite Rd, Writable.
      set (d2 := {| files := _ |}).
      assert (Here : files d2 (snapshotPath join folder) = Content (cleared timestamp))
        by (subst d2; cbn; now rewrite String.eqb_refl).
      destruct (createMatlabHelperScript join (folder :: rest) d2) as [d3|] eqn:C;
        cbn [disk]; [|exact Here].
      destruct (helper_script_kept _ _ _ C) as (_ & Else).
      rewrite (Else folder rest _ eq_refl Distinct). exact Here. }
    destruct (existsSync d (vscodePath join folder)) eqn:X.
    - now apply Step.
    - destruct Dir as [Dir | Dir]; [discriminate|].
      unfold mkdirSync. rewrite Dir. now apply Step. }
  assert (Path : workspaceFile (connection (initialize join (folder :: rest) timestamp d))
                 = Some (snapshotPath join folder)).
  { unfold initialize.
    destruct (if existsSync d _ then _ else _); [|reflexivity].
    cbv beta iota zeta.
    destruct (createMatlabHelperScript _ _ _); reflexivity. }
  assert (Read : getWorkspaceVariables
                   (files (disk (initialize join (folder :: rest) timestamp d)))
                   (connection (initialize join (folder :: rest) timestamp d))
                 = Normal (JArr [])).
  { unfold getWorkspaceVariables. rewrite Path, Cleared, Parsed. reflexivity. }
  split; [exact Cleared|]. split; [exact Read|].
  now apply placeholder_without_snapshot.
Qed.

End Reading.

End Paths.
End StartupFacts.

(** ** The commands *)

Module CommandFacts.
Import Js Vscode Connection Provider Commands JsFacts ProviderFacts ActionFacts.

(** Sending a text does not change which terminal is found. *)
Lemma find_matlab_after_send ts i t text :
  find_matlab ts = Some (i, t) ->
  find_matlab (<[i := sendText text t]> ts) = Some (i, sendText text t).
Proof.
  unfold find_matlab. rewrite !list_find_Some. intros (L & M & F).
  split; [|split].
  - apply list_lookup_insert_eq. now apply lookup_lt_Some in L.
  - exact M.
  - intros j u Lj Hj. apply (F j u); [|exact Hj].
    rewrite list_lookup_insert_ne in Lj by lia. exact Lj.
Qed.

(** A command sent, and then the export that its timeout triggers. *)
Lemma send_then_export w i t text choice :
  timeouts w = [] -> workspaceFolders w <> [] ->
  find_matlab (terminals w) = Some (i, t) ->
  let w' := timeout_due choice
              (setTimeout CallTriggerWorkspaceExport 500
                 (with_terminals (<[i := sendText text t]> (terminals w)) w)) in
  (exists t', terminals w' !! i = Some t' /\
              terminal_name t' = terminal_name t /\
              sentText t' = (sentText t ++ [text; exportCommand])%list /\
              shown t' = true) /\
  (forall j, j <> i -> terminals w' !! j = terminals w !! j) /\
  length (terminals w') = length (terminals w) /\
  timeouts w' = [] /\
  messages w' =
    (messages w ++ [Information "Workspace export command sent to MATLAB" []])%list.
Proof.
  intros T Fo Fi. cbn zeta.
  unfold timeout_due, setTimeout, with_terminals. cbn [timeouts]. rewrite T.
  cbn [app workspaceFolders terminals messages panels].
  unfold triggerWorkspaceExport. cbn [workspaceFolders terminals].
  destruct (workspaceFolders w) as [|folder rest]; [congruence|].
  rewrite (find_matlab_after_send _ _ _ text Fi).
  unfold showMessage, with_terminals. cbn [terminals messages timeouts].
  pose proof Fi as Fi'. apply list_find_Some in Fi' as (L & _).
  pose proof (lookup_lt_Some _ _ _ L) as Lt.
  split; [|split; [|split; [|split]]].
  - exists (show (sendText exportCommand (sendText text t))).
    split; [|split; [|split]].
    + apply list_lookup_insert_eq. now rewrite length_insert.
    + reflexivity.
    + cbn. now rewrite <- app_assoc.
    + reflexivity.
  - intros j Nj. now rewrite !list_lookup_insert_ne by congruence.
  - now rewrite !length_insert.
  - reflexivity.
  - reflexivity.
Qed.

(** X10.  With a workspace folder and a MATLAB terminal, [clearWorkspace]
    and [deleteVariable] followed by their timeout leave the terminal found
    with [clear all] (or [clear <name>]) and then the export command, in
    this order, and no other terminal with anything. *)
Theorem clear_then_export w i t name choice :
  timeouts w = [] -> workspaceFolders w <> [] ->
  find_matlab (terminals w) = Some (i, t) ->
  let after w' text :=
    (exists t', terminals w' !! i = Some t' /\
                terminal_name t' = terminal_name t /\
                sentText t' = (sentText t ++ [text; exportCommand])%list /\
                shown t' = true) /\
    (forall j, j <> i -> terminals w' !! j = terminals w !! j) /\
    length (terminals w') = length (terminals w) /\
    timeouts w' = [] /\
    messages w' =
      (messages w ++ [Information "Workspace export command sent to MATLAB" []])%list in
  after (timeout_due choice (clearWorkspace w)) "clear all" /\
  after (timeout_due choice (deleteVariable name w)) ("clear " ++ name).
Proof.
  intros T Fo Fi. cbn zeta. unfold clearWorkspace, deleteVariable. rewrite Fi.
  split; now apply send_then_export.
Qed.

(** X11.  [clearAll] changes the terminals exactly when the answer is
    [Yes] and there is a MATLAB terminal; the confirmation is always asked
    first, and the view is refreshed exactly when the answer is [Yes]. *)
Theorem clear_all_needs_yes answer e :
  let e' := clearAll answer e in
  (terminals (window e') <> terminals (window e) <->
   answer = Some "Yes" /\
   exists i t, find_matlab (terminals (window e)) = Some (i, t)) /\
  (exists rest, messages (window e') =
                (messages (window e) ++ confirmation :: rest)%list) /\
  refreshes e' =
    (if match answer with Some a => String.eqb a "Yes" | None => false end
     then S (refreshes e) else refreshes e) /\
  clipboard e' = clipboard e.
Proof.
  cbn zeta. unfold clearAll.
  destruct answer as [a|].
  - destruct (String.eqb_spec a "Yes") as [->|Na].
    + cbn [refresh with_window window clipboard refreshes].
      unfold clearWorkspace. cbn [showMessage terminals].
      destruct (find_matlab (terminals (window e))) as [[i t]|] eqn:Fi.
      * cbn [setTimeout with_terminals terminals messages showMessage].
        pose proof Fi as Fi'. apply list_find_Some in Fi' as (L & _).
        split; [|split; [|split]]; try reflexivity.
        -- split; [intros _; split; [reflexivity | now exists i, t]|].
           intros _ E. apply (f_equal (fun ts => ts !! i)) in E.
           rewrite list_lookup_insert_eq in E by (now apply lookup_lt_Some in L).
           rewrite L in E. injection E as E.
           apply (f_equal (fun u => length (sentText u))) in E.
           cbn in E. rewrite length_app in E. cbn in E. lia.
        -- now exists [].
      * cbn [showMessage terminals messages].
        split; [|split; [|split]]; try reflexivity.
        -- split; [congruence|]. intros (_ & i & t & E). discriminate.
        -- exists [Error "No MATLAB terminal found"]. now rewrite <- app_assoc.
    + cbn [with_window window showMessage terminals messages refreshes clipboard].
      split; [|split; [|split]]; try reflexivity.
      * split; [congruence|]. intros (E & _). congruence.
      * now exists [].
  - cbn [with_window window showMessage terminals messages refreshes clipboard].
    split; [|split; [|split]]; try reflexivity.
    + split; [congruence|]. intros (E & _). discriminate.
    + now exists [].
Qed.

(** X12.  Without a MATLAB terminal, [matlabWorkspace.deleteVariable] on a
    variable sends nothing and schedules nothing, and yet reports the
    variable as deleted, after the error, and refreshes the view. *)
Theorem delete_reported_without_terminal it n e :
  variableName it = Some n -> n <> "" ->
  find_matlab (terminals (window e)) = None ->
  let e' := deleteVariableCommand (Some it) e in
  messages (window e') =
    (messages (window e) ++
     [Error "No MATLAB terminal found";
      Information ("Deleted variable: " ++ n) []])%list /\
  terminals (window e') = terminals (window e) /\
  timeouts (window e') = timeouts (window e) /\
  refreshes e' = S (refreshes e).
Proof.
  intros V N Fi. cbn zeta. unfold deleteVariableCommand. rewrite V.
  unfold truthy_string. rewrite (proj2 (is_empty_false _) N). cbn [negb].
  unfold deleteVariable. rewrite Fi.
  cbn [refresh with_window window showMessage messages terminals timeouts refreshes].
  rewrite <- app_assoc. repeat split.
Qed.

Section Formatting.
Context `{NumberOps} `{!JsonParser}.

(** X13.  [matlabWorkspace.copyValue] on the item of a record copies the
    display string that [formatValue] made, with its truncation, and
    announces it; it does nothing when that string is empty, and nothing on
    the placeholder. *)
Theorem copy_takes_display_value mv max it e :
  item_of max mv = Normal it ->
  exists dv,
    formatValue mv max = Normal dv /\
    (dv <> "" ->
     clipboard (copyValue (Some it) e) = Some dv /\
     messages (window (copyValue (Some it) e)) =
       (messages (window e) ++ [Information ("Copied: " ++ dv) []])%list) /\
    (dv = "" -> copyValue (Some it) e = e) /\
    copyValue (Some placeholder) e = e /\
    deleteVariableCommand (Some placeholder) e = e.
Proof.
  unfold item_of. destruct (formatValue mv max) as [dv|]; cbn [bind]; [|discriminate].
  intros E. injection E as <-. exists dv. split; [reflexivity|].
  destruct (fields_of_new (Connection.name mv) NoneState
              (Some (Connection.name mv)) (Some dv)
              (Some (Connection.class mv)) (Some (Connection.size mv)))
    as (_ & V & _).
  fold (item_for mv dv) in V.
  unfold copyValue. rewrite V. unfold truthy_string.
  split; [|split; [|split]].
  - intros N. rewrite (proj2 (is_empty_false _) N). cbn. split; reflexivity.
  - intros ->. reflexivity.
  - reflexivity.
  - reflexivity.
Qed.

End Formatting.
End CommandFacts.

(** ** From the base workspace to the tree *)

Module HandoffFacts.
Import Js Connection Provider Producer Handoff JsFacts ConnectionFacts ProviderFacts.

Lemma every_append p a b : every p (a ++ b) = every p a && every p b.
Proof.
  induction a as [|c a IH]; simpl; [reflexivity|].
  now rewrite IH, andb_assoc.
Qed.

Lemma match_size_no_bracket s : every not_bracket s = true -> match_size s = None.
Proof.
  induction s as [|c s IH]; simpl; [reflexivity|].
  intros E. apply andb_prop in E as [C E]. unfold not_bracket in C.
  destruct (Ascii.eqb c "["); [discriminate | now apply IH].
Qed.

Lemma digits_no_bracket s : every is_digit s = true -> every not_bracket s = true.
Proof.
  induction s as [|c s IH]; simpl; [reflexivity|].
  intros E. apply andb_prop in E as [C E]. rewrite (IH E), andb_true_r.
  unfold not_bracket. destruct (Ascii.eqb_spec c "[") as [->|]; [discriminate | reflexivity].
Qed.

Lemma joined_no_bracket dims :
  every not_bracket (strjoin (map numeral dims) " ") = true.
Proof.
  induction dims as [|d dims IH]; [reflexivity|].
  pose proof (digits_no_bracket _ (proj2 (decimal_run (N.of_nat d)))) as D.
  destruct dims as [|d' dims]; [exact D|].
  change (strjoin (map numeral (d :: d' :: dims)) " ")
    with (numeral d ++ " " ++ strjoin (map numeral (d' :: dims)) " ").
  rewrite !every_append. unfold numeral at 1. rewrite D, IH. reflexivity.
Qed.

Lemma is_empty_run p s : run_of p s -> is_empty s = false.
Proof. intros [N _]. now apply is_empty_false. Qed.

(** A third number where the pattern wants the closing bracket. *)
Lemma three_numbers_no_match d1 d2 rest :
  run_of is_digit d1 -> run_of is_digit d2 ->
  match_after_bracket (d1 ++ " " ++ d2 ++ " " ++ rest) = None.
Proof.
  intros R1 R2. unfold match_after_bracket.
  rewrite (span_run is_digit d1 (" " ++ d2 ++ " " ++ rest) (proj2 R1) eq_refl).
  rewrite (is_empty_run _ _ R1).
  destruct (run_head _ _ R2) as (c & r & E2 & Dc).
  rewrite (span_run is_space " " (d2 ++ " " ++ rest) eq_refl)
    by (rewrite E2; cbn; now apply digit_not_space).
  cbn [is_empty].
  rewrite (span_run is_digit d2 (" " ++ rest) (proj2 R2) eq_refl).
  rewrite (is_empty_run _ _ R2). reflexivity.
Qed.

Lemma one_number_no_match d : run_of is_digit d -> match_after_bracket (d ++ "]") = None.
Proof.
  intros R. unfold match_after_bracket.
  rewrite (span_run is_digit d "]" (proj2 R) eq_refl).
  rewrite (is_empty_run _ _ R). reflexivity.
Qed.

Lemma strjoin_cons p q rest sep :
  strjoin (p :: q :: rest) sep = p ++ sep ++ strjoin (q :: rest) sep.
Proof. reflexivity. Qed.

Lemma two_dimensions_match r c :
  match_size (mat2str_size [r; c]) = Some (numeral r, numeral c).
Proof.
  unfold mat2str_size. cbn [map strjoin].
  change ("[" ++ (decimal (N.of_nat r) ++ " " ++ decimal (N.of_nat c)) ++ "]")
    with (String "[" ((decimal (N.of_nat r) ++ " " ++ decimal (N.of_nat c)) ++ "]")).
  rewrite append_assoc.
  apply match_at_start, (sized_pattern (N.of_nat r) (N.of_nat c)).
Qed.

(** X14.  The size that the scripts write is matched by the pattern of
    [getDescription] exactly when the variable has two dimensions, and the
    captures are then the two dimensions. *)
Theorem size_matched_for_two_dimensions dims :
  (match_size (mat2str_size dims) <> None <-> length dims = 2%nat) /\
  (forall r c, dims = [r; c] ->
     match_size (mat2str_size dims) = Some (numeral r, numeral c) /\
     parseInt (numeral r) = N.of_nat r /\ parseInt (numeral c) = N.of_nat c).
Proof.
  split.
  - destruct dims as [|d1 [|d2 [|d3 more]]].
    + split; [intros M; now contradiction M | discriminate].
    + split; [|discriminate]. intros M. contradiction M.
      unfold mat2str_size. cbn [map strjoin].
      change ("[" ++ decimal (N.of_nat d1) ++ "]")
        with (String "[" (decimal (N.of_nat d1) ++ "]")).
      cbn [match_size Ascii.eqb Bool.eqb].
      rewrite one_number_no_match by apply decimal_run.
      apply match_size_no_bracket. rewrite every_append.
      now rewrite (digits_no_bracket _ (proj2 (decimal_run _))).
    + split; [reflexivity|]. intros _. now rewrite two_dimensions_match.
    + split; [|discriminate]. intros M. contradiction M.
      unfold mat2str_size.
      change ("[" ++ strjoin (map (fun d => decimal (N.of_nat d)) (d1 :: d2 :: d3 :: more)) " "
                  ++ "]")
        with (String "[" (strjoin (map numeral (d1 :: d2 :: d3 :: more)) " " ++ "]")).
      cbn [match_size Ascii.eqb Bool.eqb].
      assert (Free : match_size (strjoin (map numeral (d1 :: d2 :: d3 :: more)) " " ++ "]")
                     = None).
      { apply match_size_no_bracket. rewrite every_append.
        now rewrite joined_no_bracket. }
      rewrite Free. cbn [map]. rewrite !strjoin_cons, !append_assoc.
      change (String " " ?x) with (" " ++ x).
      rewrite three_numbers_no_match by apply decimal_run. reflexivity.
  - intros r c ->. split; [apply two_dimensions_match|]. split; apply parseInt_decimal.
Qed.

Lemma substring0_twice n m s t :
  (n <= m)%nat -> (n <= String.length s)%nat ->
  substring0 n (substring0 m s ++ t) = substring0 n s.
Proof.
  unfold substring0. revert m s. induction n as [|n IH]; intros m s Le Ls.
  - destruct (String.substring 0 m s ++ t), s; reflexivity.
  - destruct m as [|m]; [lia|]. destruct s as [|c s]; simpl in Ls; [lia|].
    simpl. f_equal. apply IH; lia.
Qed.

Section Values.
Context `{NumberOps} `{!JsonParser}.

(** The record that the consumer reads for a variable whose [evalin]
    succeeded. *)
Lemma as_exported_record records r c :
  h_class r = Some c ->
  as_MatlabVariable (record_json records r) =
  Some {| Connection.name := h_name r; Connection.size := h_size r;
          Connection.class := c;
          Connection.value := Some (JStr (h_value r)) |}.
Proof.
  intros C. unfold record_json. rewrite C.
  destruct (class_before_value records); reflexivity.
Qed.

Lemma item_of_string mv max s :
  Connection.value mv = Some (JStr s) ->
  item_of max mv =
  Normal (item_for mv (if (100 <? String.length s)%nat
                       then substring0 97 s ++ "..." else s)).
Proof. intros V. apply item_of_formatted. now apply formatValue_string. Qed.

(** X15.  A character row of the workspace is shown whole when it has at
    most 100 characters and as its first 97 characters and [...] when it
    has more: the cut of the script and the cut of [formatValue] make one
    cut.  An empty text is shown as its size and class. *)
Theorem text_shown_whole_or_cut records w s max :
  var_class w = "char" ->
  exists mv it,
    as_MatlabVariable
      (record_json records (helper_export_variable w (Some (CharRow s)))) = Some mv /\
    item_of max mv = Normal it /\
    label it = var_name w /\
    getDescription it =
      if is_empty s then mat2str_size (var_size w) ++ " char"
      else if (String.length s <=? 100)%nat then s
      else substring0 97 s ++ "...".
Proof.
  intros C.
  eexists. eexists. split; [now apply as_exported_record|].
  split; [now apply item_of_string|].
  split; [apply fields_of_new|].
  rewrite getDescription_item_for.
  cbn [Connection.class Connection.size h_size h_value helper_export_variable].
  rewrite C. cbn [String.eqb Ascii.eqb Bool.eqb orb].
  change (helper_exported_value (Some (CharRow s)))
    with (exported_value (Some (CharRow s))).
  destruct (Nat.leb_spec (String.length s) 100) as [L|L].
  - rewrite (ProducerFacts.char_row_short s L).
    rewrite (proj2 (Nat.ltb_ge _ _) L).
    destruct s; reflexivity.
  - rewrite (ProducerFacts.char_row_long s L).
    destruct (substring0_prefix 100 s) as (rest & _ & Len); [lia|].
    rewrite (proj2 (Nat.ltb_lt 100 _))
      by (rewrite length_append, Len; cbn; lia).
    rewrite substring0_twice by lia.
    destruct s as [|c s]; [simpl in L; lia|]. reflexivity.
Qed.

(** What the helper script exports for a matrix: [mat2str] does not fail. *)
Lemma matrix_value a r c :
  num_dims a = [r; c] ->
  helper_exported_value (Some (Num a)) =
  if (numel [r; c] <=? 10)%nat then num_mat2str a
  else num_class a ++ " [" ++ decimal (N.of_nat (numel [r; c])) ++ " elements]".
Proof.
  intros D. unfold helper_exported_value, exported_value, numeric_value, mat2str.
  rewrite D. cbn [length Nat.leb]. now destruct (numel [r; c] <=? 10)%nat.
Qed.

(** X16.  A numeric or logical matrix of the workspace is shown by its
    value only when it is 1-by-1; otherwise by [RxC class], also when the
    script printed all its elements.  The class is [complex] for a complex
    value. *)
Theorem numeric_shown_as_scalar_or_summary records w a r c max :
  var_size w = [r; c] -> num_dims a = [r; c] ->
  num_mat2str a <> "" -> (String.length (num_mat2str a) <= 100)%nat ->
  let cls := if num_complex a then "complex" else var_class w in
  cls <> "char" -> cls <> "string" -> cls <> "struct" -> cls <> "cell" ->
  exists mv it,
    as_MatlabVariable
      (record_json records (helper_export_variable w (Some (Num a)))) = Some mv /\
    item_of max mv = Normal it /\
    label it = var_name w /\
    getDescription it =
      if (r =? 1)%nat && (c =? 1)%nat then num_mat2str a
      else numeral r ++ "x" ++ numeral c ++ " " ++ cls.
Proof.
  intros S D Text Short cls Nc Ns Nt Nl.
  eexists. eexists. split; [now apply as_exported_record|].
  split; [now apply item_of_string|].
  split; [apply fields_of_new|].
  rewrite getDescription_item_for.
  cbn [Connection.class Connection.size h_size h_value helper_export_variable].
  fold cls.
  rewrite (eqb_neq_false _ _ Nc), (eqb_neq_false _ _ Ns),
    (eqb_neq_false _ _ Nt), (eqb_neq_false _ _ Nl).
  cbn [orb negb andb]. rewrite S.
  rewrite two_dimensions_match. unfold numeral. rewrite !parseInt_decimal.
  change (truthy_string (mat2str_size [r; c])) with true.
  rewrite (matrix_value a r c D).
  set (exported := if (numel [r; c] <=? 10)%nat then _ else _).
  set (dv := if (100 <? String.length exported)%nat then _ else _).
  assert (Shown : truthy_string dv = true).
  { unfold truthy_string. apply negb_true_iff, is_empty_false. subst dv.
    destruct (100 <? String.length exported)%nat.
    - destruct (substring0 97 exported); discriminate.
    - subst exported. destruct (numel [r; c] <=? 10)%nat; [exact Text|].
      destruct (num_class a); discriminate. }
  rewrite Shown. cbn [andb negb]. rewrite !andb_true_r.
  replace (N.of_nat r =? 1)%N with (r =? 1)%nat
    by (destruct (Nat.eqb_spec r 1), (N.eqb_spec (N.of_nat r) 1); lia).
  replace (N.of_nat c =? 1)%N with (c =? 1)%nat
    by (destruct (Nat.eqb_spec c 1), (N.eqb_spec (N.of_nat c) 1); lia).
  destruct (Nat.eqb_spec r 1) as [->|]; [|reflexivity].
  destruct (Nat.eqb_spec c 1) as [->|]; [|reflexivity].
  cbn [andb]. subst dv exported.
  change (numel [1%nat; 1%nat] <=? 10)%nat with true. cbv beta iota.
  now rewrite (proj2 (Nat.ltb_ge _ _) Short).
Qed.

Lemma mapM_map {A B C} (f : B -> completion C) (h : A -> B) (g : A -> C) l :
  Forall (fun x => f (h x) = Normal (g x)) l -> mapM f (map h l) = Normal (map g l).
Proof.
  induction 1 as [|x l Fx _ IH]; [reflexivity|].
  cbn [mapM map]. now rewrite Fx, IH.
Qed.

Lemma helper_class_assigned w val :
  val <> None -> exists c, h_class (helper_export_variable w val) = Some c.
Proof.
  destruct val as [v|]; [|congruence]. intros _.
  destruct v; cbn; eauto.
Qed.

Lemma children_of_records fs this setting records :
  records <> [] ->
  Forall (fun r => h_class r <> None) records ->
  getWorkspaceVariables fs this = Normal (JArr (map (record_json records) records)) ->
  getChildren fs this setting None = Normal (map shown records).
Proof.
  intros Ne Ok G. unfold getChildren. rewrite G.
  cbn [bind interpolate_length get_length].
  unfold length_is_zero. cbn [get_length bind]. rewrite length_map.
  replace (length records =? 0)%nat with false
    by (destruct records; [congruence | reflexivity]).
  apply mapM_map. eapply Forall_impl; [|exact Ok].
  intros r C. cbn beta in C. destruct (h_class r) as [c|] eqn:E; [|congruence].
  rewrite (as_exported_record _ _ c E). unfold shown. rewrite E. cbn [default].
  now apply item_of_string.
Qed.

(** X17.  For a base workspace of numeric and logical arrays, character
    row vectors, string scalars, cell arrays, structures, tables and other
    objects (the values of [mvalue]: no character matrices, no string
    arrays of several elements), when every [evalin] of the helper script
    succeeds, the tree shows one item for each variable, in the order of
    [whos], labelled with its name and holding the value that the script
    exports for it, cut to 100 characters.  For an empty workspace the tree
    shows the placeholder. *)
Theorem exported_workspace_shown fs this setting path content base timestamp :
  workspaceFile this = Some path -> fs path = Content content ->
  JSON_parse content = Some (snapshot_json (helper_export_workspace base) timestamp) ->
  Forall (fun entry => snd entry <> None) base ->
  exists items,
    getChildren fs this setting None = Normal items /\
    (base = [] -> items = [placeholder]) /\
    (base <> [] ->
     map label items = map (fun entry => var_name (fst entry)) base /\
     map Provider.value items =
       map (fun entry =>
              let v := helper_exported_value (snd entry) in
              Some (if (100 <? String.length v)%nat
                    then substring0 97 v ++ "..." else v)) base).
Proof.
  intros W F P Ok.
  pose proof (getWorkspaceVariables_array fs this path content _ _ W F P eq_refl) as G.
  destruct base as [|entry base'] eqn:B; [|rewrite <- B in *; assert (Ne : base <> []) by (rewrite B; discriminate); clear B].
  - exists [placeholder]. split; [|split; [reflexivity | congruence]].
    now apply placeholder_without_snapshot.
  - exists (map shown (helper_export_workspace base)).
    split; [|split; [congruence|]].
    + apply children_of_records; [| |exact G].
      * destruct base; [congruence | discriminate].
      * unfold helper_export_workspace. apply Forall_map.
        eapply Forall_impl; [|exact Ok].
        intros [w val] Some_val. cbn [fst snd] in *.
        destruct (helper_class_assigned w val Some_val) as (c & C). congruence.
    + intros _. unfold helper_export_workspace. rewrite !map_map.
      split; apply map_ext; intros [w val]; unfold shown; cbn beta;
        now destruct (fields_of_new
                        (h_name (helper_export_variable w val)) NoneState
                        (Some (h_name (helper_export_variable w val)))
                        (Some (if (100 <? String.length (h_value (helper_export_variable w val)))%nat
                               then substring0 97 (h_value (helper_export_variable w val)) ++ "..."
                               else h_value (helper_export_variable w val)))
                        (Some (default "" (h_class (helper_export_variable w val))))
                        (Some (h_size (helper_export_variable w val))))
          as (L & V & _).
Qed.

End Values.
End HandoffFacts.

(** ** The clock and the notices of the auto-setup *)

Module ObservationFacts.
Import Js Vscode Extension Observations ExtensionFacts.

Lemma due_of_next a : due_of a + (2000 + Z.of_nat (S a) * 1000) = due_of (S a).
Proof. unfold due_of. rewrite Nat2Z.inj_succ. ring. Qed.

Lemma due_of_mono a b : (a <= b)%nat -> due_of a <= due_of b.
Proof. unfold due_of. intros L. nia. Qed.

Lemma due_of_nonneg a : 0 <= due_of a.
Proof. unfold due_of. nia. Qed.

Lemma due_of_max : due_of maxAttempts = 75000.
Proof. reflexivity. Qed.

Lemma clock_started : clock_invariant started.
Proof.
  let v := eval vm_compute in started in change started with v.
  constructor; unfold cleanup_pending, cleanup_due, due_of, maxAttempts; cbn.
  - right. right. right. left. split; [reflexivity | lia].
  - lia.
  - intros due t [E | [E | []]]; injection E as <- <-; lia.
  - intros _. lia.
  - discriminate.
  - lia.
Qed.

Ltac show_state :=
  cbn -[Z.add Z.mul Z.of_nat Z.ltb Z.max Nat.leb Nat.eqb maxAttempts seq
        delay_of setupCommand waiting warning successful shown_notice due_of
        cleanup_due].

Ltac timers_in :=
  let due := fresh "due" in
  let t := fresh "t" in
  let I := fresh "I" in
  intros due t I; cbn [In] in I;
  repeat (destruct I as [I | I]; [injection I as <- <-; lia|]);
  destruct I.

Ltac close_clock :=
  try lia; try discriminate; try reflexivity; try assumption;
  try (intros _; lia); try timers_in;
  try (rewrite ?due_of_max in *; unfold cleanup_due in *; lia).

(** [trySendSetup] when the retry timer has just fired. *)
Lemma clock_after_send s :
  setupComplete s = false ->
  (1 <= attemptCount s <= maxAttempts)%nat ->
  now s = due_of (attemptCount s) ->
  (pending s = [] /\ disposed s = true \/
   pending s = [(cleanup_due, CleanUp)] /\ due_of (attemptCount s) < cleanup_due) ->
  clock_invariant (trySendSetup s).
Proof.
  destruct s as [c a d time q ds ts ns au cl].
  cbn [setupComplete attemptCount now pending disposed]. intros -> A -> Q.
  unfold trySendSetup. cbn [setupComplete attemptCount orb].
  pose proof (due_of_mono a maxAttempts ltac:(lia)) as M.
  pose proof (due_of_nonneg a) as P.
  destruct (Nat.leb_spec maxAttempts a) as [Full|More].
  - cbn [dispose update_core setupComplete attemptCount negb andb].
    rewrite (proj2 (Nat.leb_le maxAttempts a)) by assumption.
    destruct Q as [[-> ->] | [-> L]];
      constructor; unfold cleanup_pending; show_state; auto; close_clock.
  - pose proof (due_of_next a) as N.
    pose proof (due_of_mono (S a) maxAttempts ltac:(lia)) as M'.
    destruct Q as [[-> ->] | [-> L]].
    + constructor; unfold cleanup_pending, set_timer; show_state;
        rewrite ?N; close_clock.
      right. right. left. reflexivity.
    + constructor; unfold cleanup_pending, set_timer; show_state;
        rewrite ?N; destruct (Z.ltb_spec (due_of (S a)) cleanup_due); show_state;
        close_clock.
      * right. right. right. left. now split.
      * right. right. right. right. now split.
Qed.

Lemma clock_step s e : clock_invariant s -> clock_invariant (step s e).
Proof.
  intros I. destruct s as [c a d time q ds ts ns au cl].
  destruct I as [Q A B C D Bd].
  unfold cleanup_pending in *.
  cbn [attemptCount pending now disposed setupComplete] in *.
  pose proof (due_of_mono a maxAttempts (proj2 A)) as M.
  pose proof (due_of_nonneg a) as P.
  destruct e.
  - (* a timer fires *)
    destruct Q as [-> | [-> | [-> | [[-> L] | [-> L]]]]].
    + constructor; unfold cleanup_pending; show_state; close_clock. now left.
    + (* only the clean-up timer *)
      specialize (C eq_refl).
      constructor; unfold cleanup_pending; show_state; close_clock.
      now left.
    + (* only the retry timer *)
      specialize (D eq_refl). subst d.
      pose proof (B _ _ (or_introl eq_refl)) as Bh.
      unfold step. cbn [pending fire setupComplete].
      replace (Z.max time (due_of a)) with (due_of a) by lia.
      destruct c; cbn [negb].
      * constructor; unfold cleanup_pending; show_state; close_clock. now left.
      * apply clock_after_send;
          destruct (attemptCount _ =? 1)%nat;
          cbn [send notify setupComplete attemptCount now pending disposed];
          auto; lia.
    + (* the retry timer, then the clean-up timer *)
      pose proof (B _ _ (or_introl eq_refl)) as Bh.
      unfold step. cbn [pending fire setupComplete].
      replace (Z.max time (due_of a)) with (due_of a) by lia.
      destruct c; cbn [negb].
      * constructor; unfold cleanup_pending; show_state; close_clock.
        right. now left.
      * apply clock_after_send;
          destruct (attemptCount _ =? 1)%nat;
          cbn [send notify setupComplete attemptCount now pending disposed];
          auto; lia.
    + (* the clean-up timer, then the retry timer *)
      specialize (C eq_refl).
      unfold step. cbn [pending fire].
      replace (Z.max time cleanup_due) with cleanup_due by lia.
      constructor; unfold cleanup_pending; show_state; close_clock.
      right. right. now left.
  - (* the snapshot file changes *)
    unfold step. cbn [disposed setupComplete].
    destruct d; [constructor; assumption|].
    destruct c; [constructor; assumption|]. cbn [negb].
    constructor; unfold cleanup_pending; show_state; close_clock.
  - unfold step. destruct (shown_notice waiting _); [|constructor; assumption].
    constructor; unfold cleanup_pending; show_state; close_clock.
  - unfold step. destruct (shown_notice warning _); constructor; assumption.
Qed.

Lemma clock_from s events :
  clock_invariant s -> clock_invariant (fold_left step events s).
Proof.
  revert s. induction events as [|e events IH]; intros s I; [exact I|].
  cbn [fold_left]. apply IH. now apply clock_step.
Qed.

Lemma clock_run events : clock_invariant (run events).
Proof. apply clock_from, clock_started. Qed.

Lemma trySendSetup_keeps s :
  sent (trySendSetup s) = sent s /\ now (trySendSetup s) = now s /\
  setupComplete (trySendSetup s) = setupComplete s /\
  (disposed s = true -> disposed (trySendSetup s) = true) /\
  successes (trySendSetup s) = successes s /\
  waitings (trySendSetup s) = waitings s.
Proof.
  destruct s as [c a d time q ds ts ns au cl]. unfold trySendSetup, successes, waitings.
  cbn [setupComplete attemptCount].
  destruct (c || (maxAttempts <=? a)%nat);
    [destruct (negb _ && _)|]; cbn; rewrite ?List.filter_app, ?length_app; cbn;
    repeat split; auto; lia.
Qed.

(** X18.  The [k]-th setup command is sent when the clock reads
    [500 * k * (k + 5)] milliseconds (3 s, 7 s, 12 s, ..., 75 s after the
    terminal opened), the retry timer that is pending is due at the time of
    the next command, and the clock of a run never passes 75 s. *)
Theorem command_times (events : list event) :
  let s := run events in
  let s' := step s TimerDue in
  0 <= now s <= 75000 /\
  (length (sent s') = S (length (sent s)) ->
   now s' = 500 * Z.of_nat (length (sent s')) * (Z.of_nat (length (sent s')) + 5)) /\
  (forall due, In (due, Retry) (pending s) ->
   due = 500 * Z.of_nat (S (length (sent s))) * (Z.of_nat (S (length (sent s))) + 5)).
Proof.
  intros s s'. subst s'.
  pose proof (clock_run events) as [Q A B C D Bd].
  pose proof (invariant_run events) as [_ _ _ _ _ wp _].
  fold s in Q, A, B, C, D, Bd, wp. rewrite due_of_max in Bd.
  split; [exact Bd|].
  destruct s as [c a d time q ds ts ns au cl].
  unfold retries_pending in wp.
  cbn [attemptCount pending now sent] in *.
  assert (R : forall due, In (due, Retry) q ->
                (length ts + 1 = a)%nat /\ due = due_of a).
  { intros due I.
    destruct Q as [-> | [-> | [-> | [[-> L] | [-> L]]]]]; cbn in I, wp;
      repeat (destruct I as [I | I]; [try discriminate; injection I as <-|]);
      try destruct I; split; try reflexivity; now apply wp. }
  split.
  - unfold step. cbn [pending].
    destruct q as [|[due [|]] rest]; cbn [fire sent dispose update_core]; try lia.
    destruct (R due (or_introl eq_refl)) as [La ->].
    pose proof (B _ _ (or_introl eq_refl)) as Bh.
    cbn [setupComplete]. destruct c; cbn [negb sent]; [lia|].
    intros _.
    match goal with |- context [trySendSetup ?x] =>
      destruct (trySendSetup_keeps x) as (-> & -> & _) end.
    destruct (_ =? 1)%nat; cbn [send notify sent now]; rewrite length_app;
      cbn [length]; replace (length ts + 1)%nat with a by lia;
      unfold due_of in *; lia.
  - intros due I. destruct (R due I) as [La ->].
    replace (S (length ts)) with a by lia. reflexivity.
Qed.

(** Once the watcher is disposed and the user leaves the notice alone,
    setup stays incomplete and no success is reported. *)
Lemma disposed_step s e :
  disposed s = true -> setupComplete s = false -> e <> DisableAutoSetup ->
  disposed (step s e) = true /\ setupComplete (step s e) = false /\
  successes (step s e) = successes s.
Proof.
  intros Dp C Ne. destruct e; try congruence; unfold step.
  - destruct (pending s) as [|[due [|]] rest].
    + auto.
    + cbn [fire setupComplete]. rewrite C. cbn [negb].
      match goal with |- context [trySendSetup ?x] =>
        destruct (trySendSetup_keeps x) as (_ & _ & -> & Dk & -> & _) end.
      destruct (_ =? 1)%nat; unfold successes; cbn;
        rewrite ?List.filter_app, ?length_app; cbn;
        (split; [apply Dk; exact Dp | split; [reflexivity | lia]]).
    + cbn. auto.
  - rewrite Dp. auto.
  - destruct (shown_notice warning s); cbn; auto.
Qed.

(** X19.  When the clock of a run has reached 60 s and setup is not
    complete, the watcher is gone: whatever happens later, short of the user
    disabling auto-setup, setup is never found complete and no success is
    reported. *)
Theorem unnoticed_after_cleanup (events more : list event) :
  let s := run events in
  cleanup_due <= now s ->
  setupComplete s = false ->
  Forall (fun e => e <> DisableAutoSetup) more ->
  disposed s = true /\
  setupComplete (fold_left step more s) = false /\
  successes (fold_left step more s) = successes s.
Proof.
  intros s Late C Quiet.
  pose proof (clock_run events) as [_ _ _ Cp Dp _]. fold s in Cp, Dp.
  assert (D : disposed s = true).
  { apply Dp. destruct (cleanup_pending s); [|reflexivity].
    specialize (Cp eq_refl). lia. }
  split; [exact D|].
  clearbody s. clear Cp Dp Late.
  revert s C D. induction Quiet as [|e more Ne Quiet IH]; intros s C D; [now split|].
  cbn [fold_left].
  destruct (disposed_step s e D C Ne) as (D' & C' & S').
  destruct (IH _ C' D') as [-> ->]. now split.
Qed.

Lemma notice_started : notice_invariant started.
Proof.
  let v := eval vm_compute in started in change started with v.
  constructor; unfold successes, waitings, warnings; cbn; try lia; discriminate.
Qed.

Ltac count_notices :=
  unfold successes, waitings, warnings in *;
  cbn [notices sent setupComplete disposed attemptCount pending send notify
       dispose update_core fire now delays] in *;
  rewrite ?List.filter_app, ?length_app in *;
  cbn [List.filter is_successful is_waiting is_warning waiting warning successful
       String.eqb Ascii.eqb Bool.eqb length andb] in *.

(** [trySendSetup] right after a command, as far as the notices go. *)
Lemma notice_after_send s :
  setupComplete s = false ->
  successes s = 0%nat ->
  warnings s = 0%nat ->
  waitings s = Nat.min 1 (length (sent s)) ->
  notice_invariant (trySendSetup s).
Proof.
  destruct s as [c a d time q ds ts ns au cl].
  unfold successes, warnings, waitings. cbn [setupComplete notices sent].
  intros -> S0 W0 Wt. unfold trySendSetup. cbn [setupComplete attemptCount orb].
  destruct (Nat.leb_spec maxAttempts a) as [Full|More].
  - cbn [dispose update_core setupComplete attemptCount negb andb].
    rewrite (proj2 (Nat.leb_le maxAttempts a)) by assumption.
    constructor; count_notices; rewrite ?S0, ?W0, ?Wt; cbn;
      try lia; try discriminate; auto.
  - constructor; unfold set_timer; count_notices; rewrite ?S0, ?W0, ?Wt;
      try lia; try discriminate; auto.
Qed.

Lemma notice_step s e :
  invariant s -> notice_invariant s -> notice_invariant (step s e).
Proof.
  intros I J. destruct s as [c a d time q ds ts ns au cl].
  destruct I as [_ _ _ o1 _ wp wi]. destruct J as [S1 Sc Wd Wt].
  unfold retries_pending in *. count_notices.
  destruct e.
  - (* a timer fires *)
    unfold step. cbn [pending].
    destruct q as [|[due [|]] rest].
    + constructor; count_notices; assumption.
    + (* the retry timer *)
      cbn [List.filter is_retry snd length] in *.
      assert (R0 : length (List.filter is_retry rest) = 0%nat) by lia.
      rewrite R0 in wp. destruct (wp eq_refl) as [ws ww].
      cbn [fire setupComplete]. destruct c; cbn [negb].
      * constructor; count_notices; assumption.
      * assert (S0 : length (List.filter is_successful ns) = 0%nat).
        { destruct (length (List.filter is_successful ns)) as [|[|n]];
            [reflexivity | now specialize (Sc eq_refl) | lia]. }
        apply notice_after_send; cbn [send attemptCount];
          destruct (Nat.eqb_spec a 1); count_notices; try reflexivity; try lia.
    + (* the clean-up timer *)
      constructor; count_notices; auto.
      all: try (intros W; destruct (Wd W); auto).
  - (* the snapshot file changes *)
    unfold step. cbn [disposed setupComplete].
    destruct d; [constructor; count_notices; assumption|].
    destruct c; [constructor; count_notices; assumption|]. cbn [negb].
    assert (S0 : length (List.filter is_successful ns) = 0%nat).
    { destruct (length (List.filter is_successful ns)) as [|[|n]];
        [reflexivity | now specialize (Sc eq_refl) | lia]. }
    constructor; count_notices; rewrite ?S0; try lia; auto.
    all: try (intros W; destruct (Wd W); discriminate).
  - (* the user disables auto-setup *)
    unfold step. destruct (shown_notice waiting _);
      constructor; count_notices; auto.
  - unfold step. destruct (shown_notice warning _);
      constructor; count_notices; auto.
Qed.

Lemma notice_from s events :
  invariant s -> notice_invariant s -> notice_invariant (fold_left step events s).
Proof.
  revert s. induction events as [|e events IH]; intros s I J; [exact J|].
  cbn [fold_left]. apply IH; [now apply invariant_step | now apply notice_step].
Qed.

(** X20.  In every run, the notice that MATLAB is awaited is shown exactly
    when the first command has been sent, the success is reported at most
    once and only with setup complete, and a run that has reported success
    never shows the warning, nor the other way round. *)
Theorem notices_of_a_run (events : list event) :
  let s := run events in
  waitings s = Nat.min 1 (length (sent s)) /\
  (successes s <= 1)%nat /\
  (successes s = 1%nat -> setupComplete s = true) /\
  ~ (1 <= successes s /\ 1 <= warnings s)%nat.
Proof.
  intros s.
  pose proof (notice_from started events invariant_started notice_started)
    as [S1 Sc Wd Wt].
  fold (run events) in S1, Sc, Wd, Wt. fold s in S1, Sc, Wd, Wt.
  repeat split; try assumption.
  intros [Hs Hw]. destruct (Wd Hw). lia.
Qed.

End ObservationFacts.

(** ** The program on more sample inputs *)

Module MoreExamples.
Import Js Vscode Connection Provider Producer Snapshots Reference Samples.
Import ReadingFacts StartupFacts CommandFacts HandoffFacts ObservationFacts.

Lemma display_is_bounded_witness :
  formatValue long_variable 5 = Normal (substring0 97 long_text ++ "...") /\
  (String.length (substring0 97 long_text ++ "...") <= 100)%nat.
Proof.
  split; [reflexivity|].
  apply (display_is_bounded long_variable 5); [intros l; discriminate | reflexivity].
Defined.

Lemma sized_description_cases_witness :
  exists it,
    item_of 5 (variable "v" "[1 5]" "double" (Some (JStr "[1 2 3 4 5]"))) = Normal it /\
    getDescription it = "1x5 double".
Proof.
  destruct (sized_description_cases
              (variable "v" "[1 5]" "double" (Some (JStr "[1 2 3 4 5]")))
              5 "[1 2 3 4 5]" 1%N 5%N) as (it & E & _ & Summary).
  - reflexivity.
  - discriminate.
  - reflexivity.
  - discriminate.
  - discriminate.
  - reflexivity.
  - reflexivity.
  - exists it. split; [exact E|]. apply Summary. right. left. discriminate.
Defined.

Lemma children_never_empty_witness :
  exists items,
    getChildren (disk example_snapshot) connection None None = Normal items /\
    items <> [].
Proof.
  assert (G : exists items,
             getChildren (disk example_snapshot) connection None None = Normal items)
    by (eexists; reflexivity).
  destruct G as (items & G). exists items. split; [exact G|].
  apply (children_never_empty (disk example_snapshot) connection None items G).
Defined.

Lemma no_snapshot_placeholder_witness :
  getChildren (fun _ => Unreadable) connection None None = Normal [placeholder].
Proof.
  apply (no_snapshot_placeholder (fun _ => Unreadable) connection None).
  intros path _. right. left. reflexivity.
Defined.

Lemma single_object_is_rejected_witness :
  getChildren (disk lone_record_snapshot) connection None None = Throw TypeError.
Proof.
  apply (single_object_is_rejected (disk lone_record_snapshot) connection None
           snapshot_path lone_record_snapshot
           (JObj [("variables", record "x" "[1 1]" "double" (JStr "5"))])
           (record "x" "[1 1]" "double" (JStr "5"))).
  - reflexivity.
  - reflexivity.
  - vm_compute. reflexivity.
  - reflexivity.
  - reflexivity.
  - reflexivity.
Defined.

Lemma helper_script_written_once_witness :
  Startup.createMatlabHelperScript join ["/project"] used_project = Normal with_script /\
  Startup.createMatlabHelperScript join ["/project"] with_script = Normal with_script /\
  Startup.files with_script "/project/.vscode/export_workspace.m"
  = Content Startup.scriptContent.
Proof.
  assert (Made : Startup.createMatlabHelperScript join ["/project"] used_project
                 = Normal with_script) by reflexivity.
  destruct (helper_script_written_once join ["/project"] used_project with_script Made)
    as (Again & _ & _ & New).
  split; [exact Made|]. split; [exact Again|].
  apply (New "/project" [] eq_refl). reflexivity.
Defined.

Lemma paths_differ :
  Startup.snapshotPath join "/project" <> Startup.scriptPath join "/project".
Proof. intros E. vm_compute in E. discriminate. Defined.

Lemma startup_touches_two_files_witness :
  Startup.files
    (Startup.disk (Startup.initialize join ["/project"] started_at used_project))
    "/project/main.m"
  = Absent.
Proof.
  destruct (startup_touches_two_files join "/project" [] started_at used_project
              paths_differ) as (_ & Else & _ & _).
  rewrite (Else "/project/main.m").
  - reflexivity.
  - intros E. vm_compute in E. discriminate.
  - intros E. vm_compute in E. discriminate.
Defined.

Lemma stale_snapshot_is_cleared_witness :
  Startup.files used_project snapshot_path = Content example_snapshot /\
  let st := Startup.initialize join ["/project"] started_at used_project in
  getChildren (Startup.files (Startup.disk st)) (Startup.connection st) None None
  = Normal [placeholder].
Proof.
  split; [reflexivity|].
  apply (stale_snapshot_is_cleared join "/project" [] started_at used_project None).
  - exact paths_differ.
  - left. reflexivity.
  - intros E. vm_compute in E. discriminate.
  - reflexivity.
  - vm_compute. reflexivity.
Defined.

Lemma clear_then_export_witness :
  exists t',
    terminals (Commands.timeout_due None
                 (clearWorkspace (window ["/project"] ["bash"; "MATLAB"])))
      !! 1%nat = Some t' /\
    sentText t' = ["clear all"; exportCommand].
Proof.
  pose proof (clear_then_export (window ["/project"] ["bash"; "MATLAB"]) 1
                (terminal "MATLAB") "x" None) as After.
  cbv zeta in After.
  destruct After as (((t' & L & _ & S & _) & _) & _).
  - reflexivity.
  - discriminate.
  - reflexivity.
  - exists t'. split; [exact L | exact S].
Defined.

Lemma delete_reported_without_terminal_witness :
  messages (Commands.window
              (Commands.deleteVariableCommand (Some item_x) (editor ["bash"])))
  = [Error "No MATLAB terminal found"; Information "Deleted variable: x" []].
Proof.
  destruct (delete_reported_without_terminal item_x "x" (editor ["bash"]))
    as (M & _).
  - reflexivity.
  - discriminate.
  - reflexivity.
  - exact M.
Defined.

Lemma copy_takes_display_value_witness :
  exists dv,
    formatValue long_variable 5 = Normal dv /\
    Commands.clipboard
      (Commands.copyValue
         (Some (item_for long_variable (substring0 97 long_text ++ "...")))
         (editor ["bash"]))
    = Some dv.
Proof.
  destruct (copy_takes_display_value long_variable 5
              (item_for long_variable (substring0 97 long_text ++ "..."))
              (editor ["bash"]) eq_refl) as (dv & F & Copy & _).
  exists dv. split; [exact F|]. apply Copy.
  intros ->. vm_compute in F. discriminate.
Defined.

Lemma text_shown_whole_or_cut_witness :
  exists mv it,
    as_MatlabVariable
      (Handoff.record_json [] (helper_export_variable whos_t (Some (CharRow long_text))))
    = Some mv /\
    item_of 5 mv = Normal it /\
    getDescription it = substring0 97 long_text ++ "...".
Proof.
  destruct (text_shown_whole_or_cut [] whos_t long_text 5 eq_refl)
    as (mv & it & A & I & _ & D).
  exists mv, it. split; [exact A|]. split; [exact I | exact D].
Defined.

Lemma numeric_shown_as_scalar_or_summary_witness :
  exists mv it,
    as_MatlabVariable
      (Handoff.record_json [] (helper_export_variable whos_v (Some (Num one_to_five))))
    = Some mv /\
    item_of 5 mv = Normal it /\
    getDescription it = "1x5 double".
Proof.
  destruct (numeric_shown_as_scalar_or_summary [] whos_v one_to_five 1 5 5)
    as (mv & it & A & I & _ & D).
  - reflexivity.
  - reflexivity.
  - discriminate.
  - cbn. lia.
  - discriminate.
  - discriminate.
  - discriminate.
  - discriminate.
  - exists mv, it. split; [exact A|]. split; [exact I | exact D].
Defined.

Lemma exported_workspace_shown_witness :
  exists items,
    getChildren (disk cube_workspace_snapshot) connection None None = Normal items /\
    map label items = ["x"; "c"] /\
    map Provider.value items = [Some "5"; Some "<error reading value>"].
Proof.
  destruct (exported_workspace_shown (disk cube_workspace_snapshot) connection None
              snapshot_path cube_workspace_snapshot
              [(whos_x, Some (Num five)); (whos_c, Some (Num small_cube))] "t")
    as (items & G & _ & Shown).
  - reflexivity.
  - reflexivity.
  - vm_compute. reflexivity.
  - repeat constructor; discriminate.
  - exists items. split; [exact G|]. apply Shown. discriminate.
Defined.

Lemma command_times_witness :
  Extension.now (Extension.step (Extension.run []) Extension.TimerDue) = 3000.
Proof.
  destruct (command_times []) as (_ & Sent & _).
  rewrite Sent; vm_compute; reflexivity.
Defined.

Lemma unnoticed_after_cleanup_witness :
  Extension.now (Extension.run (repeat Extension.TimerDue 9)) = 60000 /\
  Extension.setupComplete
    (fold_left Extension.step [Extension.FileChanged; Extension.TimerDue]
       (Extension.run (repeat Extension.TimerDue 9))) = false.
Proof.
  assert (At : Extension.now (Extension.run (repeat Extension.TimerDue 9)) = 60000)
    by (vm_compute; reflexivity).
  assert (Open : Extension.setupComplete (Extension.run (repeat Extension.TimerDue 9))
                 = false) by (vm_compute; reflexivity).
  split; [exact At|].
  destruct (unnoticed_after_cleanup (repeat Extension.TimerDue 9)
              [Extension.FileChanged; Extension.TimerDue]) as (_ & Closed & _).
  - rewrite At. unfold Observations.cleanup_due. lia.
  - exact Open.
  - repeat constructor; discriminate.
  - exact Closed.
Defined.

End MoreExamples.
